(** * SolarSimulation: the electrical model and the feasibility check

    A shallow embedding of [simulator/electrical.py] and of the
    stack-building and feasibility parts of [app.py].

    Python values are modelled as the interpreter has them:
    - [int] is an unbounded integer, [Z];
    - [float] is an IEEE 754 binary64 number, Rocq's primitive [float],
      whose operations round to nearest, ties to even, as CPython's do;
    - mixed [int]/[float] arithmetic first converts the [int] operand,
      which raises [OverflowError] when the integer is too large;
    - [round(x, ndigits)] rounds the exact value of [x] to a decimal
      string and reads that string back as the nearest double;
    - a layer is the dictionary [app.py] builds, a record here. *)

From Stdlib Require Import ZArith Floats Uint63 Lia.
From stdpp Require Import gmap strings list.

Set Warnings "-inexact-float".
Open Scope Z_scope.

(** ** Python results: a value or a raised exception *)

Module Py.

Inductive exn := OverflowError.

Inductive result (A : Type) : Type :=
  | Ok (a : A)
  | Raise (e : exn).
Arguments Ok {A} a.
Arguments Raise {A} e.

Definition bind {A B} (f : A -> result B) (m : result A) : result B :=
  match m with
  | Ok a => f a
  | Raise e => Raise e
  end.

#[export] Instance result_ret : MRet result := @Ok.
#[export] Instance result_bind : MBind result := @bind.

(** [sum(xs)] over ints: starts from [0] and adds from the left. *)
Definition sum (xs : list Z) : Z := foldl Z.add 0 xs.

(** [len(set(xs))] over strings. *)
Definition len_set (xs : list string) : Z :=
  Z.of_nat (size (list_to_set xs : gset string)).

(** [range(n)]. *)
Definition range (n : Z) : list Z := seqZ 0 n.

(** *** int to float

    [PyLong_AsDouble]: the nearest double, ties to even; the conversion
    raises when that would be an infinity. *)
Definition float_of_int (n : Z) : result float :=
  let x := SF2Prim (binary_normalize prec emax n 0 false) in
  if is_infinity x then Raise OverflowError else Ok x.

(** Binary operators with one [int] and one [float] operand. *)
Definition int_mul_float (n : Z) (x : float) : result float :=
  y ← float_of_int n; mret (y * x)%float.
Definition float_mul_int (x : float) (n : Z) : result float :=
  y ← float_of_int n; mret (x * y)%float.
Definition float_div_int (x : float) (n : Z) : result float :=
  y ← float_of_int n; mret (x / y)%float.
Definition int_add_float (n : Z) (x : float) : result float :=
  y ← float_of_int n; mret (y + x)%float.

(** *** round(x, ndigits)

    [float___round___impl] and [double_round] of CPython's
    [floatobject.c]. *)

(** [a / b] to the nearest integer, ties to even ([0 < b]). *)
Definition div_half_even (a b : Z) : Z :=
  let q := a / b in
  match 2 * (a mod b) ?= b with
  | Lt => q
  | Gt => q + 1
  | Eq => if Z.even q then q else q + 1
  end.

(** [_Py_dg_dtoa(x, 3, ndigits, ...)] for [|x| = m * 2^e]: the decimal
    digits of [|x| * 10^ndigits] correctly rounded to an integer. *)
Definition dtoa_digits (m : positive) (e ndigits : Z) : Z :=
  let num := Z.pos m * (if 0 <=? ndigits then 10 ^ ndigits else 1)
                     * (if 0 <=? e then 2 ^ e else 1) in
  let den := (if 0 <=? ndigits then 1 else 10 ^ (- ndigits))
             * (if 0 <=? e then 1 else 2 ^ (- e)) in
  div_half_even num den.

(** [(double) n] for an integer that a double holds exactly
    ([0 <= n < 2^53]). *)
Definition exact_double (n : Z) : float := of_uint63 (Uint63.of_Z n).

(** [tens[k]] of [dtoa.c]: the double [10^k], exact for [0 <= k <= 22]
    (beyond [2^63] it is not the conversion of a machine integer). *)
Definition pow10_double (k : Z) : float :=
  SF2Prim (binary_normalize prec emax (10 ^ k) 0 false).

(** [_Py_dg_strtod] on the string [<sign>0<digits>e<-ndigits>]: the
    double nearest to [digits * 10^(-ndigits)], ties to even.  As in
    [dtoa.c], up to 15 digits and a power of ten up to [10^22] are both
    exact doubles and one IEEE division rounds their quotient; longer
    inputs are rounded from the exact quotient. *)
Definition strtod (s : bool) (digits ndigits : Z) : float :=
  if (0 <=? digits) && (digits <? 10 ^ 15) && (0 <=? ndigits) && (ndigits <=? 22)
  then
    let q := (exact_double digits / pow10_double ndigits)%float in
    if s then (- q)%float else q
  else
    match digits with
    | Z.pos n =>
        if 0 <=? ndigits
        then SF2Prim (SFdiv prec emax (S754_finite s n 0)
                        (S754_finite false (Z.to_pos (10 ^ ndigits)) 0))
        else SF2Prim (binary_normalize prec emax
                        (cond_Zopp s (Z.pos n * 10 ^ (- ndigits))) 0 s)
    | _ => SF2Prim (S754_zero s)
    end.

Definition NDIGITS_MAX : Z := 323.
Definition NDIGITS_MIN : Z := -308.

Definition round (x : float) (ndigits : Z) : result float :=
  if negb (is_finite x) then Ok x
  else if NDIGITS_MAX <? ndigits then Ok x
  else if ndigits <? NDIGITS_MIN then Ok (0 * x)%float
  else
    match Prim2SF x with
    | S754_finite s m e =>
        let rounded := strtod s (dtoa_digits m e ndigits) ndigits in
        if is_infinity rounded then Raise OverflowError else Ok rounded
    | _ => Ok x
    end.

End Py.

Import Py.

(** ** simulator/electrical.py *)

(** A layer dictionary, with the keys [app.py] gives it. *)
Record Layer := {
  role : string;
  material : string;
  thickness : Z;
  toxicity : string
}.

(** The dictionary [simulate_electrical] returns. *)
Record ElectricalResult := {
  pce : float;
  voc : float;
  jsc : float;
  iv_curve : list float
}.

Definition simulate_electrical (layers : list Layer) : result ElectricalResult :=
  let total_thickness := Py.sum (thickness <$> layers) in
  let unique_materials := Py.len_set (material <$> layers) in
  iv_curve ← mapM (λ i,
      a ← int_mul_float i 0.05;
      b ← float_mul_int 0.01 total_thickness;
      c ← float_div_int b 1000;
      mret (a + c)%float) (Py.range 100);
  pce ← (a ← float_mul_int 0.1 unique_materials;
         b ← int_add_float 10 a;
         c ← float_mul_int 0.005 total_thickness;
         Py.round (b + c) 2);
  voc ← (a ← float_mul_int 0.01 unique_materials;
         Py.round (0.6 + a) 2);
  jsc ← (a ← float_mul_int 0.02 total_thickness;
         b ← int_add_float 20 a;
         Py.round b 1);
  mret {| pce := pce; voc := voc; jsc := jsc; iv_curve := iv_curve |}.

(** ** app.py: the form that builds the stack *)

Definition layer_roles : list string :=
  ["TCO"; "ETL"; "Absorber"; "HTL"; "Back Contact"; "Encapsulation"].

Definition material_options : gmap string (list string) :=
  list_to_map [
    ("TCO", ["ITO"; "FTO"; "AZO"]);
    ("ETL", ["TiO2"; "SnO2"; "ZnO"]);
    ("Absorber", ["Si"; "Perovskite"; "CIGS"; "CdTe"]);
    ("HTL", ["Spiro-OMeTAD"; "NiO"; "CuSCN"]);
    ("Back Contact", ["Al"; "Ag"; "Au"; "Mo"]);
    ("Encapsulation", ["Glass-Polymer"; "Polymeric Coating"])
  ].

(** The bounds of the two input widgets: [st.slider(.., 2, len(layer_roles))]
    and [st.number_input(.., 10, 1000)]. *)
Definition min_layers : Z := 2.
Definition min_thickness : Z := 10.
Definition max_thickness : Z := 1000.

(** What iteration [i] of the loop can append: the role is
    [layer_roles[i]], the material is one of the role's options and the
    thickness is within the widget's bounds.  The toxicity comes from
    [get_material_properties] of [simulator/meterilaDB], which is
    outside this development; it is left free. *)
Definition form_layer (i : nat) (l : Layer) : bool :=
  match layer_roles !! i with
  | Some r =>
      bool_decide (role l = r)
      && bool_decide (material l ∈ default [] (material_options !! r))
      && (min_thickness <=? thickness l) && (thickness l <=? max_thickness)
  | None => false
  end.

Fixpoint form_layers (i : nat) (layers : list Layer) : bool :=
  match layers with
  | [] => true
  | l :: layers' => form_layer i l && form_layers (S i) layers'
  end.

(** The stacks the form can hand to the simulation. *)
Definition valid_stack (layers : list Layer) : bool :=
  (min_layers <=? Z.of_nat (length layers))
  && (Z.of_nat (length layers) <=? Z.of_nat (length layer_roles))
  && form_layers 0 layers.

(** ** app.py: the feasibility check *)

Definition valid_pairs : list (string * string) :=
  [("FTO", "TiO2"); ("FTO", "SnO2"); ("AZO", "ZnO")].

(** [next((l for l in layers if l["role"] == r), None)]. *)
Definition find_role (r : string) (layers : list Layer) : option Layer :=
  List.find (λ l, bool_decide (role l = r)) layers.

(** What the check shows: [st.error] with a message that names the two
    materials, or [st.success].  The fixed text of the messages is left
    out; the two interpolated materials are kept. *)
Inductive Feedback :=
  | st_error (tco_material etl_material : string)
  | st_success.

(** A layer dictionary is never empty, so [tco and etl and ...] tests
    that both layers were found. *)
Definition feasibility_check (layers : list Layer) : Feedback :=
  let tco := find_role "TCO" layers in
  let etl := find_role "ETL" layers in
  match tco, etl with
  | Some t, Some e =>
      if negb (bool_decide ((material t, material e) ∈ valid_pairs))
      then st_error (material t) (material e)
      else st_success
  | _, _ => st_success
  end.

(** ** The numeric core on small aggregates

    Within the form's limits the total thickness and the number of
    distinct materials are small integers, whose conversion to a double
    is exact.  The expressions of [simulate_electrical] then read as
    follows, [fu] and [ft] being the doubles of the two aggregates. *)

Definition pce_arg (fu ft : float) : float :=
  (exact_double 10 + 0.1 * fu + 0.005 * ft)%float.
Definition voc_arg (fu : float) : float := (0.6 + 0.01 * fu)%float.
Definition jsc_arg (ft : float) : float :=
  (exact_double 20 + 0.02 * ft)%float.
Definition iv_offset (ft : float) : float :=
  (0.01 * ft / exact_double 1000)%float.
Definition iv_step (i : Z) : float := (exact_double i * 0.05)%float.
Definition iv_point (ft : float) (i : Z) : float :=
  (iv_step i + iv_offset ft)%float.

(** The double written with [nd] decimals as the digits [n]. *)
Definition decimal (n nd : Z) : float :=
  (exact_double n / exact_double (10 ^ nd))%float.

(** [a / 2^k] to the nearest integer, ties to even, by shifts: [h] is
    the quotient with one more bit, the rounding bit. *)
Definition div_half_even_pow2 (a k : Z) : Z :=
  let h := Z.shiftr a (k - 1) in
  let q := Z.div2 h in
  if Z.odd h
  then if a =? Z.shiftl h (k - 1)
       then (if Z.even q then q else q + 1)
       else q + 1
  else q.

(** The digits [round] hands to [strtod], for a positive double with a
    negative exponent. *)
Definition round_digits (x : float) (nd : Z) : option Z :=
  if is_finite x then
    match Prim2SF x with
    | S754_finite false m e =>
        if (e <? 0) && (0 <=? nd)
        then Some (div_half_even_pow2 (Z.pos m * 10 ^ nd) (- e))
        else None
    | _ => None
    end
  else None.

(** The integers [lo], [lo + 1], ... ([n] of them). *)
Fixpoint zrange (lo : Z) (n : nat) : list Z :=
  match n with
  | O => []
  | S n' => lo :: zrange (lo + 1) n'
  end.

(** The digits are defined along the list, stay within [lo, hi] and
    never decrease. *)
Fixpoint digits_chain (lo hi : Z) (ns : list (option Z)) : bool :=
  match ns with
  | [] => true
  | Some n :: ns' => (lo <=? n) && (n <=? hi) && digits_chain n hi ns'
  | None :: _ => false
  end.

(** The aggregates the form's limits allow: 2 to 6 layers of 10 to
    1000 nm give a total of 20 to 6000 nm and at most 6 materials. *)
Definition thickness_range : list Z := zrange 20 (Z.to_nat 5981).
Definition materials_range : list Z := zrange 0 (Z.to_nat 7).

Definition pce_digits (fu ft : float) : option Z := round_digits (pce_arg fu ft) 2.
Definition voc_digits (fu : float) : option Z := round_digits (voc_arg fu) 2.
Definition jsc_digits (ft : float) : option Z := round_digits (jsc_arg ft) 1.

(** A row of the table of decimals: the quotient is finite, rounds to
    itself and is no larger than the next one. *)
Definition decimal_row_ok (nd n : Z) : bool :=
  let y := decimal n nd in
  is_finite y
  && bool_decide (round_digits y nd = Some n)
  && (y <=? y)%float && (y <=? decimal (n + 1) nd)%float.

(** A decimal with one place is also one with two: ten times the
    digits. *)
Definition one_place_as_two_ok (n : Z) : bool :=
  let y := decimal n 1 in
  bool_decide (round_digits y 2 = Some (10 * n))
  && PrimFloat.Leibniz.eqb (decimal (10 * n) 2) y.

(** The curve from its second point on: finite points, each above the
    one before by 0.05 up to rounding. *)
Fixpoint curve_ok (prev : float) (l : list float) : bool :=
  match l with
  | [] => true
  | x :: l' =>
      is_finite x && (prev <? x)%float
      && (abs (x - prev - 0.05) <=? 1e-14)%float
      && curve_ok x l'
  end.

(** The curve at total thickness [t], the steps [i * 0.05] being
    given: it starts from the positive offset itself. *)
Definition iv_row_ok (steps : list float) (t : Z) : bool :=
  let c := iv_offset (exact_double t) in
  match (λ a, a + c)%float <$> steps with
  | [] => false
  | x :: l =>
      is_finite x && (0 <? x)%float && PrimFloat.Leibniz.eqb x c
      && curve_ok x l
  end.

(** * The vocabulary of the statements *)

(** The rows of the table of decimals: two decimals up to 40.60, one
    decimal up to 140.0. *)
Definition in_decimal_table (nd n : Z) : Prop :=
  (nd = 2 ∧ 1 <= n <= 4060) ∨ (nd = 1 ∧ 1 <= n <= 1400).

Definition strictly_increasing (l : list float) : Prop :=
  ∀ (i : nat) (a b : float),
    l !! i = Some a → l !! S i = Some b → (a <? b)%float = true.

(** Consecutive points differ by 0.05 up to [tol]. *)
Definition steps_within (tol : float) (l : list float) : Prop :=
  ∀ (i : nat) (a b : float),
    l !! i = Some a → l !! S i = Some b →
    (abs (b - a - 0.05) <=? tol)%float = true.

Definition all_finite (l : list float) : Prop :=
  Forall (λ x, is_finite x = true) l.

Definition layer (r m : string) (t : Z) (tox : string) : Layer :=
  {| role := r; material := m; thickness := t; toxicity := tox |}.

(** A stack the form can build, and the same stack with another
    toxicity recorded for its layers. *)
Definition demo_stack : list Layer :=
  [layer "TCO" "FTO" 50 "Low"; layer "ETL" "TiO2" 30 "Low";
   layer "Absorber" "Si" 300 "Low"].

(** [demo_stack] with an absorber of 450 nm. *)
Definition demo_stack_thicker : list Layer :=
  [layer "TCO" "FTO" 50 "Low"; layer "ETL" "TiO2" 30 "Low";
   layer "Absorber" "Si" 450 "Low"].

Definition with_thickness (l : Layer) (t : Z) : Layer :=
  {| role := role l; material := material l; thickness := t;
     toxicity := toxicity l |}.

(** [stack'] is [stack] with a strictly thicker Absorber layer. *)
Definition thicker_absorber (stack stack' : list Layer) : Prop :=
  ∃ front a back t',
    stack = front ++ a :: back ∧ role a = "Absorber" ∧ thickness a < t'
    ∧ stack' = front ++ with_thickness a t' :: back.

(** A stack with as many distinct materials as [demo_stack], in other
    roles, in another order and with other thicknesses. *)
Definition shuffled_stack : list Layer :=
  [layer "HTL" "NiO" 700 "Low"; layer "TCO" "ITO" 10 "Low";
   layer "ETL" "ZnO" 999 "Low"; layer "ETL" "ZnO" 5 "Low"].

(** The structural reading of a valid stack: 2 to 6 layers, each with a
    material identifier and a positive integer thickness. *)
Definition structurally_valid (stack : list Layer) : bool :=
  (2 <=? Z.of_nat (length stack)) && (Z.of_nat (length stack) <=? 6)
  && forallb (λ l, 0 <? thickness l) stack.

(** A layer of [2^1024] nm: too thick for a double. *)
Definition overflow_stack : list Layer :=
  [layer "TCO" "FTO" (2 ^ 1024) "Low"; layer "ETL" "TiO2" 30 "Low"].

(** Two layers of 10 um each. *)
Definition thick_stack : list Layer :=
  [layer "TCO" "FTO" 10000 "Low"; layer "ETL" "TiO2" 10000 "Low"].

(** Two layers of [10^22] nm each. *)
Definition huge_stack : list Layer :=
  [layer "TCO" "FTO" (10 ^ 22) "Low"; layer "ETL" "TiO2" (10 ^ 22) "Low"].

(** Two layers of [10^300] nm each. *)
Definition vast_stack : list Layer :=
  [layer "TCO" "FTO" (10 ^ 300) "Low"; layer "ETL" "TiO2" (10 ^ 300) "Low"].

(** The thinnest stack the form can build. *)
Definition thin_stack : list Layer :=
  [layer "TCO" "FTO" 10 "Low"; layer "ETL" "TiO2" 10 "Low"].

(** Every number of a result is finite. *)
Definition finite_result (r : ElectricalResult) : Prop :=
  is_finite (pce r) = true ∧ is_finite (voc r) = true
  ∧ is_finite (jsc r) = true ∧ all_finite (iv_curve r).

(** [x] is its own rounding to [d] decimal places. *)
Definition rounded_to (d : Z) (x : float) : Prop := Py.round x d = Ok x.

Definition all_rounded_to (d : Z) (r : ElectricalResult) : Prop :=
  rounded_to d (pce r) ∧ rounded_to d (voc r) ∧ rounded_to d (jsc r)
  ∧ Forall (rounded_to d) (iv_curve r).

(** Consecutive points differ by exactly the double 0.05. *)
Definition constant_step (l : list float) : Prop :=
  ∀ (i : nat) (a b : float),
    l !! i = Some a → l !! S i = Some b → (b - a =? 0.05)%float = true.

(** What C9 says of one stack: the curve rises strictly in steps of
    0.05 from [0.01 * total / 1000], which is positive. *)
Definition regular_curve (stack : list Layer) : Prop :=
  ∃ r ft,
    simulate_electrical stack = Ok r
    ∧ float_of_int (Py.sum (thickness <$> stack)) = Ok ft
    ∧ strictly_increasing (iv_curve r)
    ∧ constant_step (iv_curve r)
    ∧ iv_curve r !! 0%nat = Some (0.01 * ft / 1000)%float
    ∧ (0 <? 0.01 * ft / 1000)%float = true.

(** A stack whose first two layers are FTO on TiO2, and one whose first
    two layers are ITO on ZnO. *)
Definition fto_tio2_stack : list Layer :=
  [layer "TCO" "FTO" 50 "Low"; layer "ETL" "TiO2" 30 "Low";
   layer "Absorber" "Perovskite" 400 "High"].
Definition ito_zno_stack : list Layer :=
  [layer "TCO" "ITO" 50 "Low"; layer "ETL" "ZnO" 30 "Low";
   layer "Absorber" "Perovskite" 400 "High"].

(** A single layer, of role TCO: no ETL layer. *)
Definition tco_only_stack : list Layer := [layer "TCO" "ITO" 50 "Low"].

(** * More of app.py *)

(** ** The loop that builds the stack *)

Section StackForm.

(** The values of the widgets: the slider, and for iteration [i] the
    select box [mat_i] and the number input [th_i]. *)
Variable num_layers : Z.
Variable selected_material : nat → string.
Variable entered_thickness : nat → Z.

(** [get_material_properties(material).get("toxicity")]: the module
    [simulator/meterilaDB] is outside this development and is taken as
    given; [None] stands for a record without the key. *)
Variable toxicity_of : string → option string.

(** One iteration of the loop: the layer it appends, and whether it
    shows the toxicity warning.  [layer_roles[i]] fails past the end of
    the list, [material_options[role]] for an unknown role. *)
Definition form_iteration (i : nat) : option (Layer * bool) :=
  role ← layer_roles !! i;
  _ ← material_options !! role;
  let material := selected_material i in
  let props_toxicity := toxicity_of material in
  Some ({| role := role; material := material;
           thickness := entered_thickness i;
           toxicity := default "Unknown" props_toxicity |},
        bool_decide (props_toxicity = Some "High")).

(** [for i in range(num_layers)]. *)
Definition form_loop : option (list (Layer * bool)) :=
  mapM form_iteration (seq 0 (Z.to_nat num_layers)).

(** What the widgets guarantee: the slider a value from 2 to
    [len(layer_roles)], each select box one of its options, each number
    input a value from 10 to 1000. *)
Definition widgets_in_bounds : Prop :=
  min_layers <= num_layers <= Z.of_nat (length layer_roles)
  ∧ ∀ (i : nat) (r : string),
      layer_roles !! i = Some r →
      selected_material i ∈ default [] (material_options !! r)
      ∧ min_thickness <= entered_thickness i <= max_thickness.

End StackForm.

(** ** The toxicity overview *)

Definition tox_colors : gmap string string :=
  list_to_map [("Low", "green"); ("Medium", "yellow"); ("High", "red")].

(** [tox_colors.get(l["toxicity"], "gray")]. *)
Definition bar_color (l : Layer) : string :=
  default "gray" (tox_colors !! toxicity l).

(** ** Vocabulary *)

(** The index of the role among whose options a material is. *)
Definition material_role (m : string) : option nat :=
  fst <$> list_find (λ r, bool_decide (m ∈ default [] (material_options !! r)))
            layer_roles.

(** [stack'] is [stack] with one layer thicker by at least [d]. *)
Definition thicker_layer (d : Z) (stack stack' : list Layer) : Prop :=
  ∃ front a back t',
    stack = front ++ a :: back ∧ thickness a + d <= t'
    ∧ stack' = front ++ with_thickness a t' :: back.

(** The digits of [pce] are those of the exact value
    [10 + 0.1 * u + 0.005 * t], to within the rounding of a tie. *)
Definition pce_exact_ok (u t : Z) : bool :=
  match pce_digits (exact_double u) (exact_double t) with
  | Some n =>
      (2000 + 20 * u + t - 1 <=? 2 * n) && (2 * n <=? 2000 + 20 * u + t + 1)
  | None => false
  end.

(** The digits of [jsc] are those of the exact value [20 + 0.02 * t]
    rounded to one place, those of [voc] are [0.6 + 0.01 * u]. *)
Definition jsc_exact_ok (t : Z) : bool :=
  bool_decide (jsc_digits (exact_double t) = Some (200 + (t + 2) / 5)).
Definition voc_exact_ok (u : Z) : bool :=
  bool_decide (voc_digits (exact_double u) = Some (60 + u)).

(** Widget values for [demo_stack]. *)
Definition demo_material (i : nat) : string :=
  default "Glass-Polymer" (["FTO"; "TiO2"; "Si"; "NiO"; "Ag"] !! i).
Definition demo_thickness (i : nat) : Z :=
  default 100 ([50; 30; 300] !! i).
Definition demo_toxicity (m : string) : option string :=
  if bool_decide (m = "Si") then Some "High" else Some "Low".

(** [thin_stack] with a third layer. *)
Definition thin_stack_extended : list Layer :=
  thin_stack ++ [layer "Absorber" "CdTe" 10 "High"].

(** [demo_stack] with a TCO layer thicker by 5 nm, and its layers in
    another order. *)
Definition demo_stack_tco_thicker : list Layer :=
  [layer "TCO" "FTO" 55 "Low"; layer "ETL" "TiO2" 30 "Low";
   layer "Absorber" "Si" 300 "Low"].
Definition demo_stack_reordered : list Layer :=
  [layer "Absorber" "Si" 300 "Low"; layer "TCO" "FTO" 50 "Low";
   layer "ETL" "TiO2" 30 "Low"].

(** A stack whose TCO layer is ITO, with two ETL layers. *)
Definition ito_two_etl_stack : list Layer :=
  [layer "TCO" "ITO" 50 "Low"; layer "ETL" "SnO2" 30 "Low";
   layer "ETL" "ZnO" 30 "Low"].

(** One layer with the total thickness of [demo_stack]. *)
Definition single_layer_stack : list Layer := [layer "HTL" "NiO" 380 "Low"].

(** Layers of 30 nm and -30 nm: a total thickness of zero. *)
Definition cancelling_stack : list Layer :=
  [layer "TCO" "FTO" 30 "Low"; layer "ETL" "TiO2" (-30) "Low"].

(** * Proofs *)

(** ** The Python primitives, on examples *)

(** The literals of [electrical.py] denote the doubles nearest to their
    decimal values: the correctly rounded quotients. *)
Example literals_nearest :
  (0.05 = 5 / 100 ∧ 0.01 = 1 / 100 ∧ 0.1 = 1 / 10 ∧ 0.005 = 5 / 1000
   ∧ 0.6 = 6 / 10 ∧ 0.02 = 2 / 100)%float.
Proof. repeat split; vm_compute; reflexivity. Qed.

(** [float(n)] rounds to nearest, ties to even, and raises from
    [2^1024 - 2^970] on. *)
Example float_of_int_examples :
  float_of_int 380 = Ok 380%float
  ∧ float_of_int (2 ^ 53 + 1) = Ok 9007199254740992%float
  ∧ float_of_int (2 ^ 53 + 3) = Ok 9007199254740996%float
  ∧ float_of_int (2 ^ 1024 - 2 ^ 970 - 1) = Ok 0x1.fffffffffffffp+1023%float
  ∧ float_of_int (2 ^ 1024 - 2 ^ 970) = Raise OverflowError.
Proof. repeat split; vm_compute; reflexivity. Qed.

(** [round] works on the exact value of the double, ties to even. *)
Example round_examples :
  Py.round 2.675 2 = Ok 2.67%float
  ∧ Py.round 0.125 2 = Ok 0.12%float
  ∧ Py.round 0.375 2 = Ok 0.38%float
  ∧ Py.round 12.345 1 = Ok 12.3%float
  ∧ Py.round 1234.5 (-2) = Ok 1200%float
  ∧ Py.round 1e300 2 = Ok 1e300%float.
Proof. repeat split; vm_compute; reflexivity. Qed.

(** The stack FTO 50 nm, TiO2 30 nm, Si 300 nm: three materials and
    380 nm in total. *)
Example simulate_electrical_demo :
  ∃ r, simulate_electrical demo_stack = Ok r
       ∧ pce r = 12.2%float ∧ voc r = 0.63%float ∧ jsc r = 27.6%float
       ∧ iv_curve r !! 0%nat = Some 0.0038000000000000004%float
       ∧ iv_curve r !! 99%nat = Some 4.9538000000000002%float.
Proof. eexists. split; [vm_compute; reflexivity|]. repeat split. Qed.

(** ** The tables, by evaluation *)

Lemma exact_grid :
  forallb (λ n, is_finite (exact_double n)) (zrange 0 (Z.to_nat 6001)) = true.
Proof. vm_compute. reflexivity. Qed.

Lemma pce_grid :
  forallb (λ u, digits_chain 1 4060
             (pce_digits (exact_double u) <$> (exact_double <$> thickness_range)))
    materials_range = true.
Proof. vm_compute. reflexivity. Qed.

Lemma voc_grid :
  digits_chain 1 4060 (voc_digits <$> (exact_double <$> materials_range)) = true.
Proof. vm_compute. reflexivity. Qed.

Lemma jsc_grid :
  digits_chain 1 1400 (jsc_digits <$> (exact_double <$> thickness_range)) = true.
Proof. vm_compute. reflexivity. Qed.

Lemma decimal_table2 :
  forallb (decimal_row_ok 2) (zrange 1 (Z.to_nat 4060)) = true.
Proof. vm_compute. reflexivity. Qed.

Lemma decimal_table1 :
  forallb (decimal_row_ok 1) (zrange 1 (Z.to_nat 1400)) = true.
Proof. vm_compute. reflexivity. Qed.

Lemma one_place_table :
  forallb one_place_as_two_ok (zrange 1 (Z.to_nat 1400)) = true.
Proof. vm_compute. reflexivity. Qed.

Lemma iv_grid :
  forallb (iv_row_ok (iv_step <$> Py.range 100)) thickness_range = true.
Proof. vm_compute. reflexivity. Qed.

(** ** Ranges of integers *)

Lemma elem_of_zrange (n : nat) (lo x : Z) :
  x ∈ zrange lo n ↔ lo <= x < lo + Z.of_nat n.
Proof.
  revert lo. induction n as [|n IH]; intros lo; simpl zrange.
  - rewrite elem_of_nil. lia.
  - rewrite elem_of_cons, IH. lia.
Qed.

Lemma lookup_zrange (n : nat) (lo : Z) (i : nat) :
  (i < n)%nat → zrange lo n !! i = Some (lo + Z.of_nat i).
Proof.
  revert lo i. induction n as [|n IH]; intros lo i Hi; [lia|].
  destruct i as [|i]; simpl.
  - f_equal. lia.
  - rewrite IH by lia. f_equal. lia.
Qed.

Lemma length_zrange (n : nat) (lo : Z) : length (zrange lo n) = n.
Proof. revert lo. induction n as [|n IH]; intros lo; simpl; [done|]. by rewrite IH. Qed.

(** ** Doubles *)

Lemma is_finite_not_infinity (x : float) :
  is_finite x = true → is_infinity x = false.
Proof.
  unfold is_finite. destruct (is_nan x), (is_infinity x); simpl; congruence.
Qed.

(** The conversion of an integer below [2^63] is the primitive one. *)
Lemma float_of_int_exact (n : Z) :
  0 <= n < 2 ^ 63 →
  is_finite (exact_double n) = true →
  float_of_int n = Ok (exact_double n).
Proof.
  intros Hn Hfin. unfold float_of_int.
  assert (Hx : SF2Prim (binary_normalize prec emax n 0 false) = exact_double n).
  { unfold exact_double.
    assert (Hz : (φ (Uint63.of_Z n))%uint63 = n).
    { rewrite Uint63.of_Z_spec. apply Z.mod_small. exact Hn. }
    rewrite <- Hz at 1. by rewrite <- of_uint63_spec, SF2Prim_Prim2SF. }
  simpl. rewrite Hx. by rewrite (is_finite_not_infinity _ Hfin).
Qed.

(** Rounding a quotient by a power of two, by shifts. *)
Lemma div_half_even_pow2_correct (a k : Z) :
  0 <= a → 0 < k → div_half_even a (2 ^ k) = div_half_even_pow2 a k.
Proof.
  intros Ha Hk. unfold div_half_even, div_half_even_pow2.
  set (P := 2 ^ (k - 1)).
  assert (HP : 0 < P) by (apply Z.pow_pos_nonneg; lia).
  assert (H2k : 2 ^ k = 2 * P).
  { unfold P. rewrite <- Z.pow_succ_r by lia. f_equal. lia. }
  rewrite Z.shiftr_div_pow2, Z.shiftl_mul_pow2 by lia. fold P.
  rewrite Z.div2_div, H2k.
  set (h := a / P).
  assert (Hh : a = P * h + a mod P) by (apply Z.div_mod; lia).
  assert (Hs : 0 <= a mod P < P) by (apply Z.mod_pos_bound; lia).
  assert (Hq : h = 2 * (h / 2) + h mod 2) by (apply Z.div_mod; lia).
  assert (Hb : 0 <= h mod 2 < 2) by (apply Z.mod_pos_bound; lia).
  set (q := h / 2) in *. set (b := h mod 2) in *. set (r := a mod P) in *.
  assert (Hdiv : a / (2 * P) = q).
  { symmetry. apply (Z.div_unique_pos a (2 * P) q (P * b + r)); nia. }
  assert (Hmod : a mod (2 * P) = P * b + r).
  { symmetry. apply (Z.mod_unique_pos a (2 * P) q (P * b + r)); nia. }
  rewrite Hdiv, Hmod.
  assert (Hodd : Z.odd h = bool_decide (b = 1)).
  { rewrite Hq, Z.add_comm, Z.odd_add_mul_2.
    assert (b = 0 ∨ b = 1) as [-> | ->] by lia; done. }
  rewrite Hodd. case_bool_decide as Hb1.
  - destruct (Z.eqb_spec a (h * P)) as [Heq | Hne].
    + assert (r = 0) by nia.
      replace (2 * (P * b + r) ?= 2 * P) with Eq; [done|].
      symmetry. apply Z.compare_eq_iff. nia.
    + assert (0 < r) by nia.
      replace (2 * (P * b + r) ?= 2 * P) with Gt; [done|].
      symmetry. apply Z.compare_gt_iff. nia.
  - replace (2 * (P * b + r) ?= 2 * P) with Lt; [done|].
    symmetry. apply Z.compare_lt_iff. nia.
Qed.

(** Up to [10^18] the power of ten is the conversion of a machine
    integer. *)
Lemma pow10_double_exact (k : Z) :
  0 <= k <= 18 → pow10_double k = exact_double (10 ^ k).
Proof.
  intros Hk. unfold pow10_double, exact_double.
  assert (Hlt : 10 ^ k < 2 ^ 63).
  { apply (Z.le_lt_trans _ (10 ^ 18)); [apply Z.pow_le_mono_r; lia|done]. }
  assert (Hz : (φ (Uint63.of_Z (10 ^ k)))%uint63 = 10 ^ k).
  { rewrite Uint63.of_Z_spec. apply Z.mod_small.
    split; [apply Z.pow_nonneg; lia|exact Hlt]. }
  rewrite <- Hz at 1. by rewrite <- of_uint63_spec, SF2Prim_Prim2SF.
Qed.

(** [round] on a double whose digits [round_digits] gives. *)
Lemma round_digits_spec (x : float) (nd n : Z) :
  round_digits x nd = Some n →
  nd <= 18 → 0 <= n < 10 ^ 15 →
  is_finite (decimal n nd) = true →
  Py.round x nd = Ok (decimal n nd).
Proof.
  unfold round_digits, Py.round. intros Hd Hnd Hn Hfin.
  destruct (is_finite x); [simpl | done].
  destruct (Prim2SF x) as [| | |[] m e]; try done.
  destruct (Z.ltb_spec e 0) as [He|]; [|done].
  destruct (Z.leb_spec 0 nd) as [Hnd0|]; [|done].
  simpl in Hd. injection Hd as Hd.
  unfold NDIGITS_MAX, NDIGITS_MIN.
  destruct (Z.ltb_spec 323 nd); [lia|]. destruct (Z.ltb_spec nd (-308)); [lia|].
  assert (Hdig : dtoa_digits m e nd = n).
  { unfold dtoa_digits.
    destruct (Z.leb_spec 0 nd); [|lia]. destruct (Z.leb_spec 0 e); [lia|].
    rewrite Z.mul_1_r, Z.mul_1_l, div_half_even_pow2_correct; [done| |lia].
    apply Z.mul_nonneg_nonneg; [lia|]. apply Z.pow_nonneg. lia. }
  rewrite Hdig. unfold strtod.
  destruct (Z.leb_spec 0 n); [|lia]. destruct (Z.ltb_spec n (10 ^ 15)); [|lia].
  destruct (Z.leb_spec 0 nd); [|lia]. destruct (Z.leb_spec nd 22); [|lia].
  simpl. rewrite pow10_double_exact by lia. fold (decimal n nd).
  by rewrite (is_finite_not_infinity _ Hfin).
Qed.

(** The order of doubles is transitive. *)
Lemma SFleb_trans (a b c : spec_float) :
  SFleb a b = true → SFleb b c = true → SFleb a c = true.
Proof.
  unfold SFleb, SFcompare.
  destruct a as [[]|[]| |[] ma ea], b as [[]|[]| |[] mb eb],
    c as [[]|[]| |[] mc ec]; simpl; try done;
  change (Pos.compare_cont Eq) with Pos.compare;
  destruct (Z.compare_spec ea eb), (Z.compare_spec eb ec),
    (Z.compare_spec ea ec); simpl; try done; try lia;
  destruct (Pos.compare_spec ma mb), (Pos.compare_spec mb mc),
    (Pos.compare_spec ma mc); simpl; try done; try lia.
Qed.

Lemma leb_trans (x y z : float) :
  (x <=? y)%float = true → (y <=? z)%float = true → (x <=? z)%float = true.
Proof. rewrite !FloatAxioms.leb_spec. apply SFleb_trans. Qed.

(** ** Chains of digits *)

Lemma digits_chain_lookup (ns : list (option Z)) (lo hi : Z) (i : nat) :
  digits_chain lo hi ns = true → (i < length ns)%nat →
  ∃ n, ns !! i = Some (Some n) ∧ lo <= n <= hi.
Proof.
  revert lo i. induction ns as [|[n|] ns IH]; intros lo i Hc Hi; simpl in *;
    [lia| |done].
  apply andb_prop in Hc as [Hc Hrest]. apply andb_prop in Hc as [Hlo Hhi].
  apply Z.leb_le in Hlo, Hhi.
  destruct i as [|i]; simpl.
  - exists n. split; [done|lia].
  - destruct (IH n i Hrest) as (n' & Hn' & Hb); [lia|].
    exists n'. split; [done|lia].
Qed.

Lemma digits_chain_mono (ns : list (option Z)) (lo hi : Z) (i j : nat) (a b : Z) :
  digits_chain lo hi ns = true →
  ns !! i = Some (Some a) → ns !! j = Some (Some b) → (i <= j)%nat → a <= b.
Proof.
  revert lo i j. induction ns as [|[n|] ns IH]; intros lo i j Hc Hi Hj Hij;
    simpl in *; [done| |done].
  apply andb_prop in Hc as [Hc Hrest].
  destruct i as [|i], j as [|j]; simpl in *; try lia.
  - simplify_eq. lia.
  - assert (a = n) as -> by congruence.
    destruct (digits_chain_lookup ns n hi j Hrest) as (n' & Hn' & Hb).
    { by apply lookup_lt_Some in Hj. }
    assert (b = n') as -> by congruence. lia.
  - apply (IH n i j); [done..|lia].
Qed.

(** A chain along a range of integers, read at two of them. *)
Lemma digits_chain_range (f : float → option Z) (lo hi start : Z) (len : nat)
    (t t' : Z) :
  digits_chain lo hi (f <$> (exact_double <$> zrange start len)) = true →
  start <= t → t <= t' → t' < start + Z.of_nat len →
  ∃ n n', f (exact_double t) = Some n ∧ f (exact_double t') = Some n'
          ∧ lo <= n ∧ n <= n' ∧ n' <= hi.
Proof.
  intros Hc Ht Htt Ht'.
  set (ns := f <$> (exact_double <$> zrange start len)) in *.
  assert (Hlook : ∀ x, start <= x < start + Z.of_nat len →
            ns !! Z.to_nat (x - start) = Some (f (exact_double x))).
  { intros x Hx. unfold ns. rewrite !list_lookup_fmap, lookup_zrange by lia.
    simpl. do 3 f_equal. lia. }
  assert (Hlen : length ns = len).
  { unfold ns. by rewrite !length_fmap, length_zrange. }
  destruct (digits_chain_lookup ns lo hi (Z.to_nat (t - start)) Hc)
    as (n & Hn & Hb); [lia|].
  destruct (digits_chain_lookup ns lo hi (Z.to_nat (t' - start)) Hc)
    as (n' & Hn' & Hb'); [lia|].
  exists n, n'.
  assert (n <= n').
  { apply (digits_chain_mono ns lo hi _ _ n n' Hc Hn Hn'). lia. }
  rewrite Hlook in Hn, Hn' by lia.
  repeat split; [congruence|congruence|lia..].
Qed.

(** ** What the tables say *)

Lemma forallb_elem_of {A} (f : A → bool) (l : list A) (x : A) :
  forallb f l = true → x ∈ l → f x = true.
Proof.
  intros Hall Hx. apply (proj1 (forallb_forall f l) Hall).
  by apply list_elem_of_In.
Qed.

Lemma exact_double_finite (n : Z) :
  0 <= n <= 6000 → is_finite (exact_double n) = true.
Proof.
  intros Hn. apply (forallb_elem_of _ _ n exact_grid).
  apply elem_of_zrange. lia.
Qed.

Lemma float_of_int_in_range (n : Z) :
  0 <= n <= 6000 → float_of_int n = Ok (exact_double n).
Proof.
  intros Hn. apply float_of_int_exact; [lia|]. by apply exact_double_finite.
Qed.

Lemma pce_digits_range (u t t' : Z) :
  0 <= u <= 6 → 20 <= t → t <= t' → t' <= 6000 →
  ∃ n n', pce_digits (exact_double u) (exact_double t) = Some n
        ∧ pce_digits (exact_double u) (exact_double t') = Some n'
        ∧ 1 <= n ∧ n <= n' ∧ n' <= 4060.
Proof.
  intros Hu Ht Htt Ht'.
  assert (Hin : u ∈ materials_range) by (apply elem_of_zrange; lia).
  pose proof (forallb_elem_of _ _ u pce_grid Hin) as Hc.
  apply (digits_chain_range _ 1 4060 20 (Z.to_nat 5981) t t' Hc); lia.
Qed.

Lemma voc_digits_range (u : Z) :
  0 <= u <= 6 →
  ∃ n, voc_digits (exact_double u) = Some n ∧ 1 <= n <= 4060.
Proof.
  intros Hu.
  destruct (digits_chain_range _ 1 4060 0 (Z.to_nat 7) u u voc_grid)
    as (n & n' & Hn & Hn' & ? & ? & ?); [lia..|].
  exists n. split; [done|lia].
Qed.

Lemma jsc_digits_range (t t' : Z) :
  20 <= t → t <= t' → t' <= 6000 →
  ∃ n n', jsc_digits (exact_double t) = Some n
        ∧ jsc_digits (exact_double t') = Some n'
        ∧ 1 <= n ∧ n <= n' ∧ n' <= 1400.
Proof.
  intros Ht Htt Ht'.
  apply (digits_chain_range _ 1 1400 20 (Z.to_nat 5981) t t' jsc_grid); lia.
Qed.

Lemma decimal_row (nd n : Z) :
  in_decimal_table nd n → decimal_row_ok nd n = true.
Proof.
  intros [[-> Hn] | [-> Hn]].
  - apply (forallb_elem_of _ _ n decimal_table2). apply elem_of_zrange. lia.
  - apply (forallb_elem_of _ _ n decimal_table1). apply elem_of_zrange. lia.
Qed.

Lemma decimal_finite (nd n : Z) :
  in_decimal_table nd n → is_finite (decimal n nd) = true.
Proof.
  intros H. apply decimal_row in H. unfold decimal_row_ok in H.
  by do 3 (apply andb_prop in H as [H _]).
Qed.

Lemma decimal_digits (nd n : Z) :
  in_decimal_table nd n → round_digits (decimal n nd) nd = Some n.
Proof.
  intros H. apply decimal_row in H. unfold decimal_row_ok in H.
  apply andb_prop in H as [H _]. apply andb_prop in H as [H _].
  apply andb_prop in H as [_ H]. by apply bool_decide_eq_true in H.
Qed.

Lemma decimal_le (nd n n' : Z) :
  in_decimal_table nd n → in_decimal_table nd n' → n <= n' →
  (decimal n nd <=? decimal n' nd)%float = true.
Proof.
  intros Hn Hn' Hle.
  assert (Hk : ∃ k : nat, n' = n + Z.of_nat k).
  { exists (Z.to_nat (n' - n)). lia. }
  destruct Hk as [k ->]. clear Hle.
  induction k as [|k IH].
  - replace (n + Z.of_nat 0) with n by lia.
    apply decimal_row in Hn. unfold decimal_row_ok in Hn.
    apply andb_prop in Hn as [Hn _]. by apply andb_prop in Hn as [_ Hn].
  - assert (Hmid : in_decimal_table nd (n + Z.of_nat k)).
    { unfold in_decimal_table in *. lia. }
    apply (leb_trans _ (decimal (n + Z.of_nat k) nd)); [by apply IH|].
    apply decimal_row in Hmid. unfold decimal_row_ok in Hmid.
    apply andb_prop in Hmid as [_ Hmid].
    by replace (n + Z.of_nat (S k)) with (n + Z.of_nat k + 1) by lia.
Qed.

(** Rounding, where the digits are known and within the table. *)
Lemma round_in_table (x : float) (nd n : Z) :
  round_digits x nd = Some n → in_decimal_table nd n →
  Py.round x nd = Ok (decimal n nd).
Proof.
  intros Hd Hn. apply round_digits_spec; [done|..].
  - unfold in_decimal_table in Hn. lia.
  - unfold in_decimal_table in Hn. lia.
  - by apply decimal_finite.
Qed.

(** A decimal of the table rounds to itself. *)
Lemma round_decimal (nd n : Z) :
  in_decimal_table nd n → Py.round (decimal n nd) nd = Ok (decimal n nd).
Proof. intros Hn. apply round_in_table; [by apply decimal_digits|done]. Qed.

(** A decimal of the table with one place rounds to itself at two. *)
Lemma round_one_place_at_two (n : Z) :
  1 <= n <= 1400 → Py.round (decimal n 1) 2 = Ok (decimal n 1).
Proof.
  intros Hn.
  assert (Hin : n ∈ zrange 1 (Z.to_nat 1400)) by (apply elem_of_zrange; lia).
  pose proof (forallb_elem_of _ _ n one_place_table Hin) as Hrow.
  unfold one_place_as_two_ok in Hrow. cbv zeta in Hrow.
  apply andb_prop in Hrow as [Hd Heq].
  apply bool_decide_eq_true in Hd. apply FloatAxioms.Leibniz.eqb_spec in Heq.
  rewrite <- Heq at 2. apply round_digits_spec; [done|lia|lia|].
  rewrite Heq. apply decimal_finite. right. lia.
Qed.

(** ** The model within the form's limits *)

Lemma mapM_Ok {A B} (f : A → result B) (g : A → B) (l : list A) :
  (∀ x, x ∈ l → f x = Ok (g x)) → mapM f l = Ok (g <$> l).
Proof.
  induction l as [|x l IH]; intros Hf; [done|].
  change (mapM f (x :: l)) with (f x ≫= λ y, mapM f l ≫= λ k, mret (y :: k)).
  rewrite Hf by left. rewrite IH; [done|].
  intros y Hy. apply Hf. by right.
Qed.

Lemma foldl_add_bounds (xs : list Z) (a : Z) :
  Forall (λ x, 10 <= x <= 1000) xs →
  a + 10 * Z.of_nat (length xs) <= foldl Z.add a xs
  ∧ foldl Z.add a xs <= a + 1000 * Z.of_nat (length xs).
Proof.
  revert a. induction xs as [|x xs IH]; intros a Hall; simpl foldl.
  - simpl. lia.
  - apply Forall_cons in Hall as [Hx Hall].
    destruct (IH (a + x) Hall). rewrite length_cons. lia.
Qed.

Lemma form_layers_thickness (layers : list Layer) (i : nat) :
  form_layers i layers = true →
  Forall (λ x, 10 <= x <= 1000) (thickness <$> layers).
Proof.
  revert i. induction layers as [|l layers IH]; intros i H; simpl in *.
  - constructor.
  - apply andb_prop in H as [Hl Hrest]. constructor; [|by apply (IH (S i))].
    unfold form_layer in Hl. destruct (layer_roles !! i); [|done].
    apply andb_prop in Hl as [Hl Hmax]. apply andb_prop in Hl as [_ Hmin].
    unfold min_thickness, max_thickness in *. lia.
Qed.

Lemma len_set_bounds (xs : list string) :
  0 <= Py.len_set xs <= Z.of_nat (length xs).
Proof.
  unfold Py.len_set. split; [lia|]. apply inj_le.
  induction xs as [|x xs IH].
  - by rewrite list_to_set_nil, size_empty.
  - rewrite list_to_set_cons, size_union_alt, size_singleton, length_cons.
    pose proof (subseteq_size (list_to_set xs ∖ {[x]})
                  (list_to_set xs : gset string)) as Hsub.
    assert (size (list_to_set xs ∖ {[x]} : gset string)
            ≤ size (list_to_set xs : gset string))%nat
      by (apply Hsub, subseteq_difference_l; reflexivity).
    lia.
Qed.

(** The aggregates of a stack the form can build. *)
Lemma valid_stack_bounds (layers : list Layer) :
  valid_stack layers = true →
  20 <= Py.sum (thickness <$> layers) <= 6000
  ∧ 0 <= Py.len_set (material <$> layers) <= 6.
Proof.
  unfold valid_stack. intros H.
  apply andb_prop in H as [H Hform]. apply andb_prop in H as [Hmin Hmax].
  unfold min_layers in Hmin. simpl in Hmax.
  apply Z.leb_le in Hmin, Hmax.
  pose proof (foldl_add_bounds _ 0 (form_layers_thickness _ _ Hform)) as [Hlo Hhi].
  pose proof (len_set_bounds (material <$> layers)) as Hu.
  rewrite length_fmap in Hlo. rewrite length_fmap in Hhi.
  rewrite length_fmap in Hu. unfold Py.sum. lia.
Qed.

(** Within the limits no conversion raises and every rounding goes
    through the table of decimals. *)
Lemma simulate_electrical_in_range (layers : list Layer) (t u : Z) :
  t = Py.sum (thickness <$> layers) →
  u = Py.len_set (material <$> layers) →
  20 <= t <= 6000 → 0 <= u <= 6 →
  ∃ np nv nj,
    pce_digits (exact_double u) (exact_double t) = Some np
    ∧ voc_digits (exact_double u) = Some nv
    ∧ jsc_digits (exact_double t) = Some nj
    ∧ 1 <= np <= 4060 ∧ 1 <= nv <= 4060 ∧ 1 <= nj <= 1400
    ∧ simulate_electrical layers =
        Ok {| pce := decimal np 2; voc := decimal nv 2; jsc := decimal nj 1;
              iv_curve := iv_point (exact_double t) <$> Py.range 100 |}.
Proof.
  intros Ht Hu Htr Hur.
  destruct (pce_digits_range u t t Hur) as (np & ? & Hp & _ & ? & ? & ?); [lia..|].
  destruct (voc_digits_range u Hur) as (nv & Hv & ?).
  destruct (jsc_digits_range t t) as (nj & ? & Hj & _ & ? & ? & ?); [lia..|].
  exists np, nv, nj. repeat split; try done; try lia.
  unfold simulate_electrical. rewrite <- Ht, <- Hu.
  rewrite (mapM_Ok _ (iv_point (exact_double t))).
  2:{ intros i Hi. apply elem_of_seqZ in Hi.
      unfold int_mul_float, float_mul_int, float_div_int.
      rewrite !float_of_int_in_range by lia. reflexivity. }
  unfold int_add_float, float_mul_int.
  rewrite !float_of_int_in_range by lia.
  transitivity
    (pce ← Py.round (pce_arg (exact_double u) (exact_double t)) 2;
     voc ← Py.round (voc_arg (exact_double u)) 2;
     jsc ← Py.round (jsc_arg (exact_double t)) 1;
     Ok {| pce := pce; voc := voc; jsc := jsc;
           iv_curve := iv_point (exact_double t) <$> Py.range 100 |});
    [reflexivity|].
  rewrite (round_in_table _ 2 np Hp) by (left; lia).
  rewrite (round_in_table _ 2 nv Hv) by (left; lia).
  rewrite (round_in_table _ 1 nj Hj) by (right; lia).
  reflexivity.
Qed.

(** ** The curve within the form's limits *)

Lemma curve_ok_spec (l : list float) (prev : float) :
  curve_ok prev l = true →
  all_finite l ∧ strictly_increasing (prev :: l)
  ∧ steps_within 1e-14 (prev :: l).
Proof.
  revert prev. induction l as [|x l IH]; intros prev H; simpl in H.
  - split; [constructor|]. split; intros [|i] a b Ha Hb; done.
  - apply andb_prop in H as [H Hrest]. apply andb_prop in H as [H Hstep].
    apply andb_prop in H as [Hfin Hlt].
    destruct (IH x Hrest) as (Hf & Hinc & Hst).
    split; [by constructor|].
    split; intros [|i] a b Ha Hb; simpl in Ha, Hb.
    + by simplify_eq.
    + by apply (Hinc i).
    + by simplify_eq.
    + by apply (Hst i).
Qed.

Lemma iv_curve_in_range (t : Z) :
  20 <= t <= 6000 →
  let curve := iv_point (exact_double t) <$> Py.range 100 in
  all_finite curve ∧ strictly_increasing curve ∧ steps_within 1e-14 curve
  ∧ curve !! 0%nat = Some (iv_offset (exact_double t))
  ∧ (0 <? iv_offset (exact_double t))%float = true.
Proof.
  intros Ht curve.
  assert (Hin : t ∈ thickness_range) by (apply elem_of_zrange; lia).
  pose proof (forallb_elem_of _ _ t iv_grid Hin) as Hrow.
  unfold iv_row_ok in Hrow. cbv zeta in Hrow.
  rewrite <- list_fmap_compose in Hrow.
  change ((λ a, a + iv_offset (exact_double t))%float ∘ iv_step)
    with (iv_point (exact_double t)) in Hrow.
  fold curve in Hrow. destruct curve as [|x l]; [done|].
  apply andb_prop in Hrow as [H Hcurve]. apply andb_prop in H as [H Heq].
  apply andb_prop in H as [Hfin Hpos].
  apply FloatAxioms.Leibniz.eqb_spec in Heq. subst x.
  destruct (curve_ok_spec _ _ Hcurve) as (Hf & Hinc & Hst).
  repeat split; [by constructor|done..].
Qed.

(** * The claims *)

(** ** Determinism *)



(** What [simulate_electrical] computes for [voc], read off a result. *)
Lemma simulate_electrical_voc (stack : list Layer) (r : ElectricalResult) :
  simulate_electrical stack = Ok r →
  (a ← float_mul_int 0.01 (Py.len_set (material <$> stack));
   Py.round (0.6 + a) 2) = Ok (voc r).
Proof.
  unfold simulate_electrical.
  destruct (mapM _ _) as [iv|]; [|done].
  change (Ok iv ≫= ?f) with (f iv). cbv beta.
  destruct (float_mul_int 0.1 _ ≫= _) as [p|]; [|done].
  change (Ok p ≫= ?f) with (f p). cbv beta.
  destruct (float_mul_int 0.01 _ ≫= _) as [v|]; [|done].
  change (Ok v ≫= ?f) with (f v). cbv beta.
  destruct (float_mul_int 0.02 _ ≫= _) as [j|]; [|done].
  intros [= <-]. reflexivity.
Qed.

(** C10: [voc] depends only on the number of distinct material
    identifiers.  Two stacks with the same number of distinct materials
    return the same [voc], whatever their roles, thicknesses and order;
    in particular two stacks with the same materials do. *)
Theorem voc_depends_on_materials_only
    (stack1 stack2 : list Layer) (r1 r2 : ElectricalResult) :
  Py.len_set (material <$> stack1) = Py.len_set (material <$> stack2) →
  simulate_electrical stack1 = Ok r1 →
  simulate_electrical stack2 = Ok r2 →
  voc r1 = voc r2.
Proof.
  intros Hu H1 H2.
  apply simulate_electrical_voc in H1, H2. rewrite Hu in H1. congruence.
Qed.

Lemma voc_depends_on_materials_only_witness :
  ∃ r1 r2,
    simulate_electrical demo_stack = Ok r1
    ∧ simulate_electrical shuffled_stack = Ok r2
    ∧ voc r1 = voc r2.
Proof.
  assert (H1 : ∃ r, simulate_electrical demo_stack = Ok r)
    by (eexists; vm_compute; reflexivity).
  assert (H2 : ∃ r, simulate_electrical shuffled_stack = Ok r)
    by (eexists; vm_compute; reflexivity).
  destruct H1 as [r1 H1], H2 as [r2 H2]. exists r1, r2.
  split; [exact H1|]. split; [exact H2|].
  apply (voc_depends_on_materials_only demo_stack shuffled_stack r1 r2);
    [vm_compute; reflexivity | exact H1 | exact H2].
Defined.

(** ** The feasibility check *)

(** C5: on a stack whose TCO layer is FTO and whose ETL layer is TiO2
    the check passes; on a stack whose TCO layer is ITO and whose ETL
    layer is ZnO it fails and reports the pair ITO, ZnO. *)
Theorem feasibility_examples (stack : list Layer) (tco etl : Layer) :
  find_role "TCO" stack = Some tco → find_role "ETL" stack = Some etl →
  (material tco = "FTO" → material etl = "TiO2" →
   feasibility_check stack = st_success)
  ∧ (material tco = "ITO" → material etl = "ZnO" →
     feasibility_check stack = st_error "ITO" "ZnO").
Proof.
  intros Ht He. unfold feasibility_check. rewrite Ht, He.
  split; intros -> ->; reflexivity.
Qed.

Lemma feasibility_examples_witness :
  feasibility_check fto_tio2_stack = st_success
  ∧ feasibility_check ito_zno_stack = st_error "ITO" "ZnO".
Proof.
  split.
  - apply (feasibility_examples fto_tio2_stack
             (layer "TCO" "FTO" 50 "Low") (layer "ETL" "TiO2" 30 "Low"));
      reflexivity.
  - apply (feasibility_examples ito_zno_stack
             (layer "TCO" "ITO" 50 "Low") (layer "ETL" "ZnO" 30 "Low"));
      reflexivity.
Defined.

(** C6: when the TCO layer or the ETL layer is absent the check passes;
    it fails exactly when both are present and the pair of their
    materials is not one of [valid_pairs], and then it reports that
    pair. *)
Theorem feasibility_spec (stack : list Layer) :
  (find_role "TCO" stack = None ∨ find_role "ETL" stack = None →
   feasibility_check stack = st_success)
  ∧ (∀ a b : string,
       feasibility_check stack = st_error a b ↔
       ∃ tco etl,
         find_role "TCO" stack = Some tco ∧ find_role "ETL" stack = Some etl
         ∧ a = material tco ∧ b = material etl ∧ (a, b) ∉ valid_pairs).
Proof.
  unfold feasibility_check. split.
  - intros [-> | ->]; [done|]. by destruct (find_role "TCO" stack).
  - intros a b. split.
    + destruct (find_role "TCO" stack) as [t|]; [|done].
      destruct (find_role "ETL" stack) as [e|]; [|done].
      case_bool_decide as Hin; simpl; [done|].
      intros [= <- <-]. by exists t, e.
    + intros (t & e & -> & -> & -> & -> & Hnot).
      by rewrite bool_decide_eq_false_2.
Qed.

Lemma feasibility_spec_witness :
  feasibility_check tco_only_stack = st_success
  ∧ feasibility_check ito_zno_stack = st_error "ITO" "ZnO".
Proof.
  split.
  - apply (proj1 (feasibility_spec tco_only_stack)). right. reflexivity.
  - apply (proj2 (feasibility_spec ito_zno_stack) "ITO" "ZnO").
    exists (layer "TCO" "ITO" 50 "Low"), (layer "ETL" "ZnO" 30 "Low").
    do 4 (split; [reflexivity|]). intros Hin.
    repeat (apply elem_of_cons in Hin as [Hin | Hin]; [discriminate|]).
    by apply elem_of_nil in Hin.
Defined.

(** ** The stacks the form can build *)

Section FormStack.

Variable stack : list Layer.
Hypothesis stack_valid : valid_stack stack = true.

Let total : Z := Py.sum (thickness <$> stack).

Lemma form_total : 20 <= total <= 6000.
Proof. by destruct (valid_stack_bounds _ stack_valid). Qed.

Lemma form_float_total : float_of_int total = Ok (exact_double total).
Proof. apply float_of_int_in_range. pose proof form_total. lia. Qed.

(** The call returns, and its scalars are decimals of the table. *)
Lemma form_result :
  ∃ np nv nj,
    1 <= np <= 4060 ∧ 1 <= nv <= 4060 ∧ 1 <= nj <= 1400
    ∧ simulate_electrical stack =
        Ok {| pce := decimal np 2; voc := decimal nv 2; jsc := decimal nj 1;
              iv_curve := iv_point (exact_double total) <$> Py.range 100 |}.
Proof.
  destruct (valid_stack_bounds _ stack_valid) as [Ht Hu].
  destruct (simulate_electrical_in_range stack _ _ eq_refl eq_refl Ht Hu)
    as (np & nv & nj & _ & _ & _ & Hp & Hv & Hj & Hr).
  by exists np, nv, nj.
Qed.



(** C7, amended: for every stack the form can build, [pce], [voc] and
    [jsc] are their own rounding to 2 decimal places, [jsc], which is
    rounded to 1 place, being its own rounding to 1 place as well.
    Nothing is said of the entries of [iv_curve], which the code does
    not round. *)
Theorem scalars_rounded :
  ∃ r, simulate_electrical stack = Ok r
       ∧ rounded_to 2 (pce r) ∧ rounded_to 2 (voc r) ∧ rounded_to 2 (jsc r)
       ∧ rounded_to 1 (jsc r).
Proof.
  destruct form_result as (np & nv & nj & Hp & Hv & Hj & Hr).
  eexists. split; [exact Hr|]. cbn [pce voc jsc]. unfold rounded_to.
  split; [apply round_decimal; left; lia|].
  split; [apply round_decimal; left; lia|].
  split; [by apply round_one_place_at_two|].
  apply round_decimal. right. lia.
Qed.

(** C8, amended: for every stack the form can build (2 to 6 layers of
    10 to 1000 nm), [simulate_electrical] returns a result, raises no
    exception, and every number of the result is finite. *)
Theorem simulate_electrical_total :
  ∃ r, simulate_electrical stack = Ok r ∧ finite_result r.
Proof.
  destruct form_result as (np & nv & nj & Hp & Hv & Hj & Hr).
  destruct (iv_curve_in_range _ form_total) as (Hfin & _).
  eexists. split; [exact Hr|]. unfold finite_result. cbn [pce voc jsc iv_curve].
  repeat split; [apply decimal_finite; unfold in_decimal_table; lia..|done].
Qed.

(** C9, amended: for every stack the form can build, [iv_curve] is
    strictly increasing, consecutive points differ by 0.05 to within
    [1e-14], and the first point is [0.01 * total / 1000], which is
    strictly greater than zero. *)
Theorem iv_curve_increasing :
  ∃ r ft,
    simulate_electrical stack = Ok r
    ∧ float_of_int (Py.sum (thickness <$> stack)) = Ok ft
    ∧ strictly_increasing (iv_curve r)
    ∧ steps_within 1e-14 (iv_curve r)
    ∧ iv_curve r !! 0%nat = Some (0.01 * ft / 1000)%float
    ∧ (0 <? 0.01 * ft / 1000)%float = true.
Proof.
  destruct form_result as (np & nv & nj & _ & _ & _ & Hr).
  destruct (iv_curve_in_range _ form_total) as (_ & Hinc & Hst & H0 & Hpos).
  eexists _, (exact_double total).
  split; [exact Hr|]. split; [exact form_float_total|].
  cbn [iv_curve]. repeat split; done.
Qed.

End FormStack.



Lemma scalars_rounded_witness :
  ∃ r, simulate_electrical demo_stack = Ok r
       ∧ rounded_to 2 (pce r) ∧ rounded_to 2 (voc r) ∧ rounded_to 2 (jsc r)
       ∧ rounded_to 1 (jsc r).
Proof. apply (scalars_rounded demo_stack). reflexivity. Defined.

Lemma simulate_electrical_total_witness :
  ∃ r, simulate_electrical demo_stack = Ok r ∧ finite_result r.
Proof. apply (simulate_electrical_total demo_stack). reflexivity. Defined.

Lemma iv_curve_increasing_witness :
  ∃ r ft,
    simulate_electrical demo_stack = Ok r
    ∧ float_of_int (Py.sum (thickness <$> demo_stack)) = Ok ft
    ∧ strictly_increasing (iv_curve r)
    ∧ steps_within 1e-14 (iv_curve r)
    ∧ iv_curve r !! 0%nat = Some (0.01 * ft / 1000)%float
    ∧ (0 <? 0.01 * ft / 1000)%float = true.
Proof. apply (iv_curve_increasing demo_stack). reflexivity. Defined.

(** ** A thicker absorber *)

Lemma foldl_add_shift (xs : list Z) (a : Z) :
  foldl Z.add a xs = a + foldl Z.add 0 xs.
Proof.
  revert a. induction xs as [|x xs IH]; intros a; simpl; [lia|].
  rewrite (IH (a + x)), (IH (0 + x)). lia.
Qed.

Lemma sum_app_cons (xs ys : list Z) (x : Z) :
  Py.sum (xs ++ x :: ys) = Py.sum xs + x + Py.sum ys.
Proof.
  unfold Py.sum. rewrite foldl_app. simpl.
  rewrite (foldl_add_shift ys). lia.
Qed.

(** C3: monotonicity.  For two stacks the form can build that differ
    only in a strictly thicker Absorber layer, the thicker stack's [pce]
    and [jsc] are greater than or equal to the thinner stack's. *)
Theorem pce_jsc_monotone (stack stack' : list Layer) :
  valid_stack stack = true → valid_stack stack' = true →
  thicker_absorber stack stack' →
  ∃ r r',
    simulate_electrical stack = Ok r ∧ simulate_electrical stack' = Ok r'
    ∧ (pce r <=? pce r')%float = true ∧ (jsc r <=? jsc r')%float = true.
Proof.
  intros Hv Hv' (front & a & back & t' & -> & _ & Hlt & ->).
  destruct (valid_stack_bounds _ Hv) as [Ht Hu].
  destruct (valid_stack_bounds _ Hv') as [Ht' Hu'].
  rewrite !fmap_app, !fmap_cons in *. cbn [with_thickness material thickness] in *.
  rewrite sum_app_cons in *.
  set (u := Py.len_set ((material <$> front) ++ material a :: (material <$> back))) in *.
  set (t := Py.sum (thickness <$> front) + thickness a + Py.sum (thickness <$> back)) in *.
  set (t2 := Py.sum (thickness <$> front) + t' + Py.sum (thickness <$> back)) in *.
  assert (Et : t = Py.sum (thickness <$> front ++ a :: back)).
  { unfold t. by rewrite fmap_app, fmap_cons, sum_app_cons. }
  assert (Eu : u = Py.len_set (material <$> front ++ a :: back)).
  { unfold u. by rewrite fmap_app, fmap_cons. }
  assert (Et2 : t2 = Py.sum (thickness <$> front ++ with_thickness a t' :: back)).
  { unfold t2. by rewrite fmap_app, fmap_cons, sum_app_cons. }
  assert (Eu2 : u = Py.len_set (material <$> front ++ with_thickness a t' :: back)).
  { unfold u. by rewrite fmap_app, fmap_cons. }
  destruct (simulate_electrical_in_range _ t u Et Eu Ht Hu)
    as (np & nv & nj & Hp & _ & Hj & _ & _ & _ & Hr).
  destruct (simulate_electrical_in_range _ t2 u Et2 Eu2 Ht' Hu)
    as (np' & nv' & nj' & Hp' & _ & Hj' & _ & _ & _ & Hr').
  assert (Htt : t <= t2) by (unfold t, t2; lia).
  destruct (pce_digits_range u t t2 Hu (proj1 Ht) Htt (proj2 Ht'))
    as (n & n' & Hn & Hn' & ? & ? & ?).
  destruct (jsc_digits_range t t2 (proj1 Ht) Htt (proj2 Ht'))
    as (m & m' & Hm & Hm' & ? & ? & ?).
  assert (np = n) as -> by congruence. assert (np' = n') as -> by congruence.
  assert (nj = m) as -> by congruence. assert (nj' = m') as -> by congruence.
  eexists _, _. split; [exact Hr|]. split; [exact Hr'|]. cbn [pce jsc].
  split; apply decimal_le; unfold in_decimal_table; lia.
Qed.

Lemma pce_jsc_monotone_witness :
  ∃ r r',
    simulate_electrical demo_stack = Ok r
    ∧ simulate_electrical demo_stack_thicker = Ok r'
    ∧ (pce r <=? pce r')%float = true ∧ (jsc r <=? jsc r')%float = true.
Proof.
  apply (pce_jsc_monotone demo_stack demo_stack_thicker); [reflexivity..|].
  exists [layer "TCO" "FTO" 50 "Low"; layer "ETL" "TiO2" 30 "Low"],
    (layer "Absorber" "Si" 300 "Low"), [], 450.
  repeat split.
Defined.

(** ** Stacks beyond the form's limits *)


(** Below that thickness [pce] is not clamped either, it follows the
    total thickness: 110.2 percent at 20 um, [1e20] at [2 * 10^22] nm,
    above [1e297] at [2 * 10^300] nm. *)
Lemma pce_follows_thickness :
  (∃ r, simulate_electrical thick_stack = Ok r ∧ pce r = 110.2%float)
  ∧ (∃ r, simulate_electrical huge_stack = Ok r ∧ pce r = 1e20%float)
  ∧ (∃ r, simulate_electrical vast_stack = Ok r
          ∧ (1e297 <? pce r)%float = true).
Proof. repeat split; eexists; split; vm_compute; reflexivity. Qed.

(** C8, as stated: [simulate_electrical] returns a finite result for
    every structurally valid stack.  It fails on a stack with a layer of
    [2^1024] nm: the call raises [OverflowError]. *)
Lemma simulate_electrical_raises :
  ¬ ∀ stack : list Layer,
      structurally_valid stack = true →
      ∃ r, simulate_electrical stack = Ok r ∧ finite_result r.
Proof.
  intros H. destruct (H overflow_stack eq_refl) as (r & Hr & _).
  vm_compute in Hr. discriminate.
Qed.

(** C7, as stated: one number of decimal places, to which the three
    scalars and the entries of [iv_curve] are all rounded.  It fails for
    the two precisions the code states, 2 and 1, and for every precision
    up to 18 places: the first point of the curve of [demo_stack],
    [0.01 * 380 / 1000], is not its own rounding to any of them. *)
Lemma iv_curve_not_rounded :
  ¬ ∃ d : Z, 0 <= d <= 18 ∧ ∀ stack : list Layer,
      valid_stack stack = true →
      ∃ r, simulate_electrical stack = Ok r ∧ all_rounded_to d r.
Proof.
  intros (d & Hd & H).
  destruct (H demo_stack eq_refl) as (r & Hr & _ & _ & _ & Hiv).
  vm_compute in Hr. injection Hr as <-. cbn [iv_curve] in Hiv.
  apply Forall_cons in Hiv as [Hhead _]. unfold rounded_to in Hhead.
  assert (Hcases : d = 0 ∨ d = 1 ∨ d = 2 ∨ d = 3 ∨ d = 4 ∨ d = 5 ∨ d = 6
            ∨ d = 7 ∨ d = 8 ∨ d = 9 ∨ d = 10 ∨ d = 11 ∨ d = 12 ∨ d = 13
            ∨ d = 14 ∨ d = 15 ∨ d = 16 ∨ d = 17 ∨ d = 18) by lia.
  repeat (destruct Hcases as [-> | Hcases]; [vm_compute in Hhead; discriminate|]).
  subst d. vm_compute in Hhead. discriminate.
Qed.

(** C9, as stated, fails on two stacks with positive thicknesses.  With
    two layers of [10^22] nm the curve does not rise at all: every point
    is [2e17], the offset absorbs the steps.  With two layers of 10 nm,
    within the form's limits, the curve rises but the step from its
    second point to its third is not the double 0.05. *)
Lemma iv_curve_not_regular :
  Forall (λ l, 0 < thickness l) huge_stack ∧ ¬ regular_curve huge_stack
  ∧ Forall (λ l, 0 < thickness l) thin_stack ∧ ¬ regular_curve thin_stack.
Proof.
  split; [repeat constructor|]. split.
  - intros (r & ft & Hr & _ & Hinc & _).
    vm_compute in Hr. injection Hr as <-.
    specialize (Hinc 0%nat _ _ eq_refl eq_refl). vm_compute in Hinc. discriminate.
  - split; [repeat constructor|].
    intros (r & ft & Hr & _ & _ & Hstep & _).
    vm_compute in Hr. injection Hr as <-.
    specialize (Hstep 1%nat _ _ eq_refl eq_refl). vm_compute in Hstep. discriminate.
Qed.

(** * Further properties of the code *)

(** ** simulate_electrical on any list of layers *)

(** What [simulate_electrical] computes for the curve, [pce] and [jsc],
    read off a result. *)
Lemma simulate_electrical_inv (stack : list Layer) (r : ElectricalResult) :
  simulate_electrical stack = Ok r →
  mapM (λ i,
      a ← int_mul_float i 0.05;
      b ← float_mul_int 0.01 (Py.sum (thickness <$> stack));
      c ← float_div_int b 1000;
      mret (a + c)%float) (Py.range 100) = Ok (iv_curve r)
  ∧ (a ← float_mul_int 0.02 (Py.sum (thickness <$> stack));
     b ← int_add_float 20 a;
     Py.round b 1) = Ok (jsc r).
Proof.
  unfold simulate_electrical.
  destruct (mapM _ _) as [iv|]; [|done].
  change (Ok iv ≫= ?f) with (f iv). cbv beta.
  destruct (float_mul_int 0.1 _ ≫= _) as [p|]; [|done].
  change (Ok p ≫= ?f) with (f p). cbv beta.
  destruct (float_mul_int 0.01 _ ≫= _) as [v|]; [|done].
  change (Ok v ≫= ?f) with (f v). cbv beta.
  destruct (float_mul_int 0.02 _ ≫= _) as [j|]; [|done].
  intros [= <-]. split; reflexivity.
Qed.

Lemma sum_Permutation (xs ys : list Z) : xs ≡ₚ ys → Py.sum xs = Py.sum ys.
Proof.
  unfold Py.sum. induction 1 as [|x xs ys _ IH|x y xs|xs ys zs _ IH1 _ IH2];
    simpl; [done| | |congruence].
  - rewrite (foldl_add_shift xs), (foldl_add_shift ys). lia.
  - rewrite (foldl_add_shift xs (0 + y + x)), (foldl_add_shift xs (0 + x + y)). lia.
Qed.

(** X1: the order of the layers does not matter.  Two stacks that are
    permutations of each other give the same result, or the same
    exception. *)
Theorem simulate_electrical_permutation (stack1 stack2 : list Layer) :
  stack1 ≡ₚ stack2 → simulate_electrical stack1 = simulate_electrical stack2.
Proof.
  intros Hp. unfold simulate_electrical.
  rewrite (sum_Permutation (thickness <$> stack1) (thickness <$> stack2))
    by (by apply fmap_Permutation).
  assert (Hset : Py.len_set (material <$> stack1) = Py.len_set (material <$> stack2)).
  { unfold Py.len_set. do 2 f_equal. apply list_to_set_perm_L.
    by apply fmap_Permutation. }
  by rewrite Hset.
Qed.

Lemma simulate_electrical_permutation_witness :
  simulate_electrical demo_stack = simulate_electrical demo_stack_reordered.
Proof.
  apply (simulate_electrical_permutation demo_stack demo_stack_reordered).
  symmetry.
  exact (Permutation_cons_append
           [layer "TCO" "FTO" 50 "Low"; layer "ETL" "TiO2" 30 "Low"]
           (layer "Absorber" "Si" 300 "Low")).
Defined.

(** X2: [jsc] and [iv_curve] depend on the total thickness alone.  Two
    stacks with the same total thickness return the same [jsc] and the
    same curve, whatever their materials, roles and number of layers. *)
Theorem jsc_curve_depend_on_total_only
    (stack1 stack2 : list Layer) (r1 r2 : ElectricalResult) :
  Py.sum (thickness <$> stack1) = Py.sum (thickness <$> stack2) →
  simulate_electrical stack1 = Ok r1 →
  simulate_electrical stack2 = Ok r2 →
  jsc r1 = jsc r2 ∧ iv_curve r1 = iv_curve r2.
Proof.
  intros Ht H1 H2.
  apply simulate_electrical_inv in H1 as [Hiv1 Hj1].
  apply simulate_electrical_inv in H2 as [Hiv2 Hj2].
  rewrite Ht in Hiv1, Hj1. split; congruence.
Qed.

Lemma jsc_curve_depend_on_total_only_witness :
  ∃ r1 r2,
    simulate_electrical demo_stack = Ok r1
    ∧ simulate_electrical single_layer_stack = Ok r2
    ∧ jsc r1 = jsc r2 ∧ iv_curve r1 = iv_curve r2.
Proof.
  assert (H1 : ∃ r, simulate_electrical demo_stack = Ok r)
    by (eexists; vm_compute; reflexivity).
  assert (H2 : ∃ r, simulate_electrical single_layer_stack = Ok r)
    by (eexists; vm_compute; reflexivity).
  destruct H1 as [r1 H1], H2 as [r2 H2]. exists r1, r2.
  split; [exact H1|]. split; [exact H2|].
  apply (jsc_curve_depend_on_total_only demo_stack single_layer_stack r1 r2);
    [vm_compute; reflexivity | exact H1 | exact H2].
Defined.

(** X3: a total thickness too large for a double is not caught.  When
    the conversion of the total thickness raises, so does
    [simulate_electrical], with the same exception. *)
Theorem simulate_electrical_overflow (stack : list Layer) (e : exn) :
  float_of_int (Py.sum (thickness <$> stack)) = Raise e →
  simulate_electrical stack = Raise e.
Proof.
  intros Hraise. unfold simulate_electrical.
  change (Py.range 100) with (seqZ 0 100). rewrite seqZ_cons by lia.
  change (mapM ?f (?x :: ?l)) with (f x ≫= λ y, mapM f l ≫= λ k, mret (y :: k)).
  cbv beta.
  assert (Hmul : ∀ x, float_mul_int x (Py.sum (thickness <$> stack)) = Raise e).
  { intros x. unfold float_mul_int. by rewrite Hraise. }
  rewrite !Hmul. destruct e.
  destruct (int_mul_float 0 0.05) as [a|[]]; reflexivity.
Qed.

Lemma simulate_electrical_overflow_witness :
  simulate_electrical overflow_stack = Raise OverflowError.
Proof.
  apply (simulate_electrical_overflow overflow_stack OverflowError).
  vm_compute. reflexivity.
Defined.

(** X4: neither an empty stack nor a total thickness of zero is
    rejected.  With a total of zero and at most 6 distinct materials the
    call returns, [jsc] is 20, [pce] and [voc] are their base values
    plus the share of the materials, and the curve is [i * 0.05]: it
    starts at exactly zero. *)
Theorem simulate_electrical_zero_total (stack : list Layer) :
  Py.sum (thickness <$> stack) = 0 →
  Py.len_set (material <$> stack) <= 6 →
  simulate_electrical stack =
    Ok {| pce := decimal (1000 + 10 * Py.len_set (material <$> stack)) 2;
          voc := decimal (60 + Py.len_set (material <$> stack)) 2;
          jsc := 20;
          iv_curve := iv_step <$> Py.range 100 |}
  ∧ (iv_step <$> Py.range 100) !! 0%nat = Some 0%float.
Proof.
  intros Ht Hu. split; [|reflexivity].
  pose proof (len_set_bounds (material <$> stack)) as [Hu0 _].
  unfold simulate_electrical. rewrite Ht.
  set (u := Py.len_set (material <$> stack)) in *.
  assert (Hcases : u = 0 ∨ u = 1 ∨ u = 2 ∨ u = 3 ∨ u = 4 ∨ u = 5 ∨ u = 6) by lia.
  clearbody u.
  repeat (destruct Hcases as [-> | Hcases]; [vm_compute; reflexivity|]).
  subst u. vm_compute. reflexivity.
Qed.

Lemma simulate_electrical_zero_total_witness :
  simulate_electrical cancelling_stack =
    Ok {| pce := decimal (1000 + 10 * Py.len_set (material <$> cancelling_stack)) 2;
          voc := decimal (60 + Py.len_set (material <$> cancelling_stack)) 2;
          jsc := 20;
          iv_curve := iv_step <$> Py.range 100 |}
  ∧ (iv_step <$> Py.range 100) !! 0%nat = Some 0%float.
Proof.
  apply (simulate_electrical_zero_total cancelling_stack);
    vm_compute; [reflexivity | discriminate].
Defined.

(** ** The stacks the form can build: structure *)

Lemma form_layers_lookup (stack : list Layer) (k i : nat) (l : Layer) :
  form_layers k stack = true → stack !! i = Some l →
  form_layer (k + i) l = true.
Proof.
  revert k i. induction stack as [|l0 stack IH]; intros k i H Hl; [done|].
  simpl in H. apply andb_prop in H as [H0 Hrest].
  destruct i as [|i]; simpl in Hl.
  - injection Hl as <-. by rewrite Nat.add_0_r.
  - replace (k + S i)%nat with (S k + i)%nat by lia. by apply IH.
Qed.

(** What [form_layer] says of a layer. *)
Lemma form_layer_spec (i : nat) (l : Layer) :
  form_layer i l = true →
  layer_roles !! i = Some (role l)
  ∧ material l ∈ default [] (material_options !! role l)
  ∧ 10 <= thickness l <= 1000.
Proof.
  unfold form_layer. destruct (layer_roles !! i) as [r|]; [|done].
  intros H. apply andb_prop in H as [H Hmax]. apply andb_prop in H as [H Hmin].
  apply andb_prop in H as [Hr Hm].
  apply bool_decide_eq_true in Hr, Hm. subst r.
  unfold min_thickness, max_thickness in *. repeat split; [done|lia..].
Qed.

(** The options of the roles are disjoint: a material of the options of
    role [i] is of no other role. *)
Lemma form_layer_material_role (i : nat) (l : Layer) :
  form_layer i l = true → material_role (material l) = Some i.
Proof.
  intros H. apply form_layer_spec in H as (Hr & Hm & _).
  do 6 (destruct i as [|i];
    [simpl in Hr; injection Hr as Hr; rewrite <- Hr in Hm;
     set (options := default [] _) in Hm; vm_compute in options; subst options;
     repeat (apply elem_of_cons in Hm as [-> | Hm]; [reflexivity|]);
     by apply elem_of_nil in Hm|]).
  done.
Qed.

Lemma form_layers_roles (stack : list Layer) (k : nat) :
  form_layers k stack = true →
  role <$> stack = take (length stack) (drop k layer_roles).
Proof.
  revert k. induction stack as [|l stack IH]; intros k H; [done|].
  simpl in H. apply andb_prop in H as [H0 Hrest].
  apply form_layer_spec in H0 as (Hr & _).
  rewrite (drop_S _ _ _ Hr), fmap_cons, length_cons.
  change (take (S ?n) (?x :: ?xs)) with (x :: take n xs).
  f_equal. by apply IH.
Qed.

Lemma form_layers_material_roles (stack : list Layer) (k : nat) :
  form_layers k stack = true →
  material_role <$> (material <$> stack) = Some <$> seq k (length stack).
Proof.
  revert k. induction stack as [|l stack IH]; intros k H; [done|].
  simpl in H. apply andb_prop in H as [H0 Hrest].
  rewrite !fmap_cons, (form_layer_material_role _ _ H0), length_cons.
  change (seq k (S ?n)) with (k :: seq (S k) n). rewrite fmap_cons.
  f_equal. by apply IH.
Qed.

Lemma valid_stack_roles (stack : list Layer) :
  valid_stack stack = true → role <$> stack = take (length stack) layer_roles.
Proof.
  unfold valid_stack. intros H. apply andb_prop in H as [_ Hform].
  pose proof (form_layers_roles _ _ Hform) as Hroles. by rewrite drop_0 in Hroles.
Qed.

Lemma valid_stack_materials (stack : list Layer) :
  valid_stack stack = true → NoDup (material <$> stack).
Proof.
  unfold valid_stack. intros H. apply andb_prop in H as [_ Hform].
  apply (NoDup_fmap_1 material_role).
  rewrite (form_layers_material_roles _ _ Hform).
  apply NoDup_fmap_2; [apply _|apply NoDup_seq].
Qed.

Lemma valid_stack_len_set (stack : list Layer) :
  valid_stack stack = true →
  Py.len_set (material <$> stack) = Z.of_nat (length stack).
Proof.
  intros H. unfold Py.len_set. f_equal.
  rewrite size_list_to_set by (by apply valid_stack_materials).
  by rewrite length_fmap.
Qed.

(** X5: the stacks the form can build keep the layer-stack invariants.
    The roles are the first roles of [layer_roles], in that order and
    none twice; no material occurs twice either, so the number of
    distinct materials is the number of layers. *)
Theorem valid_stack_structure (stack : list Layer) :
  valid_stack stack = true →
  role <$> stack = take (length stack) layer_roles
  ∧ NoDup (role <$> stack)
  ∧ NoDup (material <$> stack)
  ∧ Py.len_set (material <$> stack) = Z.of_nat (length stack).
Proof.
  intros H. split; [by apply valid_stack_roles|].
  split; [|split; [by apply valid_stack_materials|by apply valid_stack_len_set]].
  rewrite (valid_stack_roles _ H).
  apply (sublist_NoDup _ layer_roles); [|apply sublist_take].
  apply (bool_decide_eq_true_1 (NoDup layer_roles)). reflexivity.
Qed.

Lemma valid_stack_structure_witness :
  role <$> demo_stack = take (length demo_stack) layer_roles
  ∧ NoDup (role <$> demo_stack)
  ∧ NoDup (material <$> demo_stack)
  ∧ Py.len_set (material <$> demo_stack) = Z.of_nat (length demo_stack).
Proof. apply (valid_stack_structure demo_stack). reflexivity. Defined.

(** ** The stacks the form can build: the numbers *)

Lemma pce_exact_grid :
  forallb (λ u, forallb (pce_exact_ok u) thickness_range) materials_range = true.
Proof. vm_compute. reflexivity. Qed.

Lemma jsc_exact_grid : forallb jsc_exact_ok thickness_range = true.
Proof. vm_compute. reflexivity. Qed.

Lemma voc_exact_grid : forallb voc_exact_ok materials_range = true.
Proof. vm_compute. reflexivity. Qed.

Lemma decimal_strict2 :
  forallb (λ n, (decimal n 2 <? decimal (n + 1) 2)%float)
    (zrange 1 (Z.to_nat 4060)) = true.
Proof. vm_compute. reflexivity. Qed.

Lemma decimal_strict1 :
  forallb (λ n, (decimal n 1 <? decimal (n + 1) 1)%float)
    (zrange 1 (Z.to_nat 1400)) = true.
Proof. vm_compute. reflexivity. Qed.

Lemma SFltb_leb_trans (a b c : spec_float) :
  SFltb a b = true → SFleb b c = true → SFltb a c = true.
Proof.
  unfold SFltb, SFleb, SFcompare.
  destruct a as [[]|[]| |[] ma ea], b as [[]|[]| |[] mb eb],
    c as [[]|[]| |[] mc ec]; simpl; try done;
  change (Pos.compare_cont Eq) with Pos.compare;
  destruct (Z.compare_spec ea eb), (Z.compare_spec eb ec),
    (Z.compare_spec ea ec); simpl; try done; try lia;
  destruct (Pos.compare_spec ma mb), (Pos.compare_spec mb mc),
    (Pos.compare_spec ma mc); simpl; try done; try lia.
Qed.

Lemma ltb_leb_trans (x y z : float) :
  (x <? y)%float = true → (y <=? z)%float = true → (x <? z)%float = true.
Proof. rewrite !FloatAxioms.ltb_spec, FloatAxioms.leb_spec. apply SFltb_leb_trans. Qed.

(** Within the table, larger digits give a larger double. *)
Lemma decimal_lt (nd n n' : Z) :
  in_decimal_table nd n → in_decimal_table nd n' → n < n' →
  (decimal n nd <? decimal n' nd)%float = true.
Proof.
  intros Hn Hn' Hlt.
  apply (ltb_leb_trans _ (decimal (n + 1) nd)).
  - destruct Hn as [[-> Hn] | [-> Hn]].
    + apply (forallb_elem_of _ _ n decimal_strict2). apply elem_of_zrange. lia.
    + apply (forallb_elem_of _ _ n decimal_strict1). apply elem_of_zrange. lia.
  - apply decimal_le; [|done|lia]. unfold in_decimal_table in *. lia.
Qed.

(** The digits of the three scalars, against exact arithmetic. *)
Lemma exact_digits (u t : Z) :
  0 <= u <= 6 → 20 <= t <= 6000 →
  ∃ n, pce_digits (exact_double u) (exact_double t) = Some n
       ∧ 2000 + 20 * u + t - 1 <= 2 * n <= 2000 + 20 * u + t + 1
       ∧ voc_digits (exact_double u) = Some (60 + u)
       ∧ jsc_digits (exact_double t) = Some (200 + (t + 2) / 5).
Proof.
  intros Hu Ht.
  assert (Hui : u ∈ materials_range) by (apply elem_of_zrange; lia).
  assert (Hti : t ∈ thickness_range) by (apply elem_of_zrange; lia).
  pose proof (forallb_elem_of _ _ u pce_exact_grid Hui) as Hp. cbv beta in Hp.
  pose proof (forallb_elem_of _ _ t Hp Hti) as Hp'. unfold pce_exact_ok in Hp'.
  pose proof (forallb_elem_of _ _ u voc_exact_grid Hui) as Hv.
  pose proof (forallb_elem_of _ _ t jsc_exact_grid Hti) as Hj.
  apply bool_decide_eq_true in Hv, Hj.
  destruct (pce_digits _ _) as [n|]; [|done].
  apply andb_prop in Hp' as [Hlo Hhi]. apply Z.leb_le in Hlo, Hhi.
  exists n. repeat split; done.
Qed.

(** The scalars of a valid stack, as digits of the table. *)
Lemma valid_stack_digits (stack : list Layer) :
  valid_stack stack = true →
  ∃ r np nj,
    simulate_electrical stack = Ok r
    ∧ pce r = decimal np 2 ∧ jsc r = decimal nj 1
    ∧ voc r = decimal (60 + Z.of_nat (length stack)) 2
    ∧ nj = 200 + (Py.sum (thickness <$> stack) + 2) / 5
    ∧ 2000 + 20 * Z.of_nat (length stack) + Py.sum (thickness <$> stack) - 1
      <= 2 * np
      <= 2000 + 20 * Z.of_nat (length stack) + Py.sum (thickness <$> stack) + 1
    ∧ 2 <= Z.of_nat (length stack) <= 6
    ∧ 10 * Z.of_nat (length stack) <= Py.sum (thickness <$> stack)
      <= 1000 * Z.of_nat (length stack).
Proof.
  intros Hv. destruct (valid_stack_bounds _ Hv) as [Ht Hu].
  pose proof (valid_stack_len_set _ Hv) as Hlen.
  destruct (simulate_electrical_in_range stack _ _ eq_refl eq_refl Ht Hu)
    as (np & nv & nj & Hp & Hvd & Hj & _ & _ & _ & Hr).
  destruct (exact_digits _ _ Hu Ht) as (n & Hn & Hb & Hvn & Hjn).
  rewrite Hlen in *.
  eexists _, n, (200 + (Py.sum (thickness <$> stack) + 2) / 5).
  split; [exact Hr|]. cbn [pce voc jsc].
  split; [congruence|]. split; [congruence|]. split; [congruence|].
  split; [reflexivity|]. split; [lia|].
  unfold valid_stack in Hv; apply andb_prop in Hv as [Hl Hform];
    apply andb_prop in Hl as [Hmin Hmax]; unfold min_layers in Hmin;
    simpl in Hmax; apply Z.leb_le in Hmin, Hmax.
  split; [lia|].
  pose proof (foldl_add_bounds _ 0 (form_layers_thickness _ _ Hform)) as [Hlo Hhi].
  rewrite length_fmap in Hlo; rewrite length_fmap in Hhi; unfold Py.sum; lia.
Qed.

(** X6: the scalars of a stack the form can build, against exact
    arithmetic.  With [n] layers and a total thickness [T], [voc] is the
    double nearest to [0.60 + 0.01 * n], [jsc] the double nearest to
    [20 + 0.02 * T] rounded to one decimal, and [pce] a double with two
    decimals within 0.005 of [10 + 0.1 * n + 0.005 * T]. *)
Theorem scalars_exact (stack : list Layer) :
  valid_stack stack = true →
  ∃ r N,
    simulate_electrical stack = Ok r
    ∧ voc r = decimal (60 + Z.of_nat (length stack)) 2
    ∧ jsc r = decimal (200 + (Py.sum (thickness <$> stack) + 2) / 5) 1
    ∧ pce r = decimal N 2
    ∧ 2000 + 20 * Z.of_nat (length stack) + Py.sum (thickness <$> stack) - 1
      <= 2 * N
      <= 2000 + 20 * Z.of_nat (length stack) + Py.sum (thickness <$> stack) + 1.
Proof.
  intros Hv.
  destruct (valid_stack_digits _ Hv)
    as (r & np & nj & Hr & Hpce & Hjsc & Hvoc & -> & Hp & _).
  exists r, np. done.
Qed.

Lemma scalars_exact_witness :
  ∃ r N,
    simulate_electrical demo_stack = Ok r
    ∧ voc r = decimal (60 + Z.of_nat (length demo_stack)) 2
    ∧ jsc r = decimal (200 + (Py.sum (thickness <$> demo_stack) + 2) / 5) 1
    ∧ pce r = decimal N 2
    ∧ 2000 + 20 * Z.of_nat (length demo_stack)
      + Py.sum (thickness <$> demo_stack) - 1
      <= 2 * N
      <= 2000 + 20 * Z.of_nat (length demo_stack)
         + Py.sum (thickness <$> demo_stack) + 1.
Proof. apply (scalars_exact demo_stack). reflexivity. Defined.

(** X7: the ranges of the scalars.  For every stack the form can build,
    [pce] lies between 10.3 and 40.6, [voc] between 0.62 and 0.66 and
    [jsc] between 20.4 and 140. *)
Theorem scalars_ranges (stack : list Layer) :
  valid_stack stack = true →
  ∃ r, simulate_electrical stack = Ok r
       ∧ (10.3 <=? pce r)%float = true ∧ (pce r <=? 40.6)%float = true
       ∧ (0.62 <=? voc r)%float = true ∧ (voc r <=? 0.66)%float = true
       ∧ (20.4 <=? jsc r)%float = true ∧ (jsc r <=? 140)%float = true.
Proof.
  intros Hv.
  destruct (valid_stack_digits _ Hv)
    as (r & np & nj & Hr & Hpce & Hjsc & Hvoc & Hj & Hp & Hn & Ht).
  assert (204 <= nj <= 1400).
  { subst nj.
    pose proof (Z.div_le_lower_bound (Py.sum (thickness <$> stack) + 2) 5 4).
    pose proof (Z.div_lt_upper_bound (Py.sum (thickness <$> stack) + 2) 5 1201).
    lia. }
  exists r. split; [done|]. rewrite Hpce, Hjsc, Hvoc.
  repeat split.
  - apply (leb_trans _ (decimal 1030 2)); [vm_compute; reflexivity|].
    apply decimal_le; unfold in_decimal_table; lia.
  - apply (leb_trans _ (decimal 4060 2)); [|vm_compute; reflexivity].
    apply decimal_le; unfold in_decimal_table; lia.
  - apply (leb_trans _ (decimal 62 2)); [vm_compute; reflexivity|].
    apply decimal_le; unfold in_decimal_table; lia.
  - apply (leb_trans _ (decimal 66 2)); [|vm_compute; reflexivity].
    apply decimal_le; unfold in_decimal_table; lia.
  - apply (leb_trans _ (decimal 204 1)); [vm_compute; reflexivity|].
    apply decimal_le; unfold in_decimal_table; lia.
  - apply (leb_trans _ (decimal 1400 1)); [|vm_compute; reflexivity].
    apply decimal_le; unfold in_decimal_table; lia.
Qed.

Lemma scalars_ranges_witness :
  ∃ r, simulate_electrical demo_stack = Ok r
       ∧ (10.3 <=? pce r)%float = true ∧ (pce r <=? 40.6)%float = true
       ∧ (0.62 <=? voc r)%float = true ∧ (voc r <=? 0.66)%float = true
       ∧ (20.4 <=? jsc r)%float = true ∧ (jsc r <=? 140)%float = true.
Proof. apply (scalars_ranges demo_stack). reflexivity. Defined.

Lemma sum_snoc (xs : list Z) (x : Z) : Py.sum (xs ++ [x]) = Py.sum xs + x.
Proof. rewrite sum_app_cons. unfold Py.sum at 2. simpl. lia. Qed.

(** X8: one more layer raises all three scalars.  When a stack the form
    can build is extended by a layer into another such stack, [pce],
    [voc] and [jsc] all strictly increase. *)
Theorem extra_layer_raises_scalars (stack : list Layer) (l : Layer) :
  valid_stack stack = true → valid_stack (stack ++ [l]) = true →
  ∃ r r',
    simulate_electrical stack = Ok r
    ∧ simulate_electrical (stack ++ [l]) = Ok r'
    ∧ (pce r <? pce r')%float = true ∧ (voc r <? voc r')%float = true
    ∧ (jsc r <? jsc r')%float = true.
Proof.
  intros Hv Hv'.
  assert (Hl : 10 <= thickness l <= 1000).
  { unfold valid_stack in Hv'. apply andb_prop in Hv' as [_ Hform].
    apply form_layers_thickness in Hform.
    rewrite fmap_app in Hform. apply Forall_app in Hform as [_ Hform].
    by inversion Hform. }
  destruct (valid_stack_digits _ Hv)
    as (r & np & nj & Hr & Hpce & Hjsc & Hvoc & Hj & Hp & Hn & Ht).
  destruct (valid_stack_digits _ Hv')
    as (r' & np' & nj' & Hr' & Hpce' & Hjsc' & Hvoc' & Hj' & Hp' & Hn' & Ht').
  rewrite length_app in Hvoc', Hp', Hn', Ht'.
  rewrite fmap_app in Hj', Hp', Ht'.
  change (thickness <$> [l]) with [thickness l] in *.
  rewrite sum_snoc in Hj', Hp', Ht'. simpl length in *.
  set (n := Z.of_nat (length stack)) in *.
  replace (Z.of_nat (length stack + 1)) with (n + 1) in * by (unfold n; lia).
  set (T := Py.sum (thickness <$> stack)) in *.
  assert (nj < nj').
  { subst nj nj'. Z.to_euclidean_division_equations. lia. }
  assert (204 <= nj ∧ nj' <= 1400) as [? ?].
  { subst nj nj'.
    pose proof (Z.div_le_lower_bound (T + 2) 5 4).
    pose proof (Z.div_lt_upper_bound (T + thickness l + 2) 5 1201).
    lia. }
  exists r, r'. split; [done|]. split; [done|].
  rewrite Hpce, Hjsc, Hvoc, Hpce', Hjsc', Hvoc'.
  repeat split; apply decimal_lt; unfold in_decimal_table; lia.
Qed.

Lemma extra_layer_raises_scalars_witness :
  ∃ r r',
    simulate_electrical thin_stack = Ok r
    ∧ simulate_electrical thin_stack_extended = Ok r'
    ∧ (pce r <? pce r')%float = true ∧ (voc r <? voc r')%float = true
    ∧ (jsc r <? jsc r')%float = true.
Proof.
  apply (extra_layer_raises_scalars thin_stack (layer "Absorber" "CdTe" 10 "High"));
    reflexivity.
Defined.

(** X9: the resolution of the scalars.  When a layer, whichever its
    role, of a stack the form can build is made thicker by at least
    5 nm, [pce] and [jsc] strictly increase and [voc] stays the same. *)
Theorem thicker_layer_raises_pce_jsc (stack stack' : list Layer) :
  valid_stack stack = true → valid_stack stack' = true →
  thicker_layer 5 stack stack' →
  ∃ r r',
    simulate_electrical stack = Ok r ∧ simulate_electrical stack' = Ok r'
    ∧ (pce r <? pce r')%float = true ∧ (jsc r <? jsc r')%float = true
    ∧ voc r = voc r'.
Proof.
  intros Hv Hv' (front & a & back & t' & -> & Hlt & ->).
  destruct (valid_stack_digits _ Hv)
    as (r & np & nj & Hr & Hpce & Hjsc & Hvoc & Hj & Hp & Hn & Ht).
  destruct (valid_stack_digits _ Hv')
    as (r' & np' & nj' & Hr' & Hpce' & Hjsc' & Hvoc' & Hj' & Hp' & Hn' & Ht').
  rewrite length_app, length_cons in Hvoc, Hp, Hn, Ht, Hvoc', Hp', Hn', Ht'.
  rewrite fmap_app, fmap_cons, sum_app_cons in Hj, Hp, Ht, Hj', Hp', Ht'.
  cbn [with_thickness thickness] in *.
  set (n := Z.of_nat (length front + S (length back))) in *.
  set (A := Py.sum (thickness <$> front)) in *.
  set (B := Py.sum (thickness <$> back)) in *.
  assert (nj < nj').
  { subst nj nj'. Z.to_euclidean_division_equations. lia. }
  assert (204 <= nj ∧ nj' <= 1400) as [? ?].
  { subst nj nj'.
    pose proof (Z.div_le_lower_bound (A + thickness a + B + 2) 5 4).
    pose proof (Z.div_lt_upper_bound (A + t' + B + 2) 5 1201).
    lia. }
  exists r, r'. split; [done|]. split; [done|].
  rewrite Hpce, Hjsc, Hvoc, Hpce', Hjsc', Hvoc'.
  split; [|split]; [apply decimal_lt; unfold in_decimal_table; lia..|].
  reflexivity.
Qed.

Lemma thicker_layer_raises_pce_jsc_witness :
  ∃ r r',
    simulate_electrical demo_stack = Ok r
    ∧ simulate_electrical demo_stack_tco_thicker = Ok r'
    ∧ (pce r <? pce r')%float = true ∧ (jsc r <? jsc r')%float = true
    ∧ voc r = voc r'.
Proof.
  apply (thicker_layer_raises_pce_jsc demo_stack demo_stack_tco_thicker);
    [reflexivity..|].
  exists [], (layer "TCO" "FTO" 50 "Low"),
    [layer "ETL" "TiO2" 30 "Low"; layer "Absorber" "Si" 300 "Low"], 55.
  split; [reflexivity|]. split; [|reflexivity]. simpl. lia.
Defined.

(** ** app.py: the loop that builds the stack *)

Lemma layer_roles_options (i : nat) (r : string) :
  layer_roles !! i = Some r → is_Some (material_options !! r).
Proof.
  intros H.
  do 6 (destruct i as [|i]; [injection H as <-; vm_compute; eauto|]).
  done.
Qed.

Lemma form_iteration_is_Some sel th tox (i : nat) :
  is_Some (form_iteration sel th tox i) ↔ (i < length layer_roles)%nat.
Proof.
  rewrite <- lookup_lt_is_Some. unfold form_iteration. split.
  - intros [x Hx]. destruct (layer_roles !! i); [eauto|done].
  - intros [r Hr]. rewrite Hr. cbn -[material_options].
    destruct (layer_roles_options _ _ Hr) as [opts ->]. cbn. eauto.
Qed.

Lemma form_iteration_Some sel th tox (i : nat) (l : Layer) (w : bool) :
  form_iteration sel th tox i = Some (l, w) →
  layer_roles !! i = Some (role l)
  ∧ material l = sel i ∧ thickness l = th i
  ∧ toxicity l = default "Unknown" (tox (sel i))
  ∧ w = bool_decide (tox (sel i) = Some "High").
Proof.
  unfold form_iteration. destruct (layer_roles !! i) as [r|]; [|done].
  cbn -[material_options].
  destruct (material_options !! r); [|done]. cbn.
  intros [= <- <-]. done.
Qed.

Lemma mapM_option_cons {A B} (f : A → option B) (x : A) (l : list A) :
  mapM f (x :: l) = y ← f x; k ← mapM f l; Some (y :: k).
Proof. reflexivity. Qed.

Lemma form_loop_from sel th tox (n k : nat) :
  (k + n <= length layer_roles)%nat →
  (∀ (i : nat) (r : string),
      layer_roles !! i = Some r →
      sel i ∈ default [] (material_options !! r)
      ∧ min_thickness <= th i <= max_thickness) →
  ∃ out, mapM (form_iteration sel th tox) (seq k n) = Some out
         ∧ length out = n ∧ form_layers k (fst <$> out) = true.
Proof.
  intros Hk Hw. revert k Hk. induction n as [|n IH]; intros k Hk.
  - exists []. done.
  - destruct (IH (S k)) as (out & Hout & Hlen & Hform); [lia|].
    destruct (proj2 (form_iteration_is_Some sel th tox k)) as [[l w] Hl]; [lia|].
    exists ((l, w) :: out). cbn [seq]. rewrite mapM_option_cons, Hl, Hout.
    split; [done|]. split; [simpl; lia|].
    rewrite fmap_cons. cbn [fst form_layers]. rewrite Hform, andb_true_r.
    apply form_iteration_Some in Hl as (Hr & Hm & Ht & _).
    destruct (Hw _ _ Hr) as [Hopt Hth].
    unfold form_layer. rewrite Hr, Hm, Ht.
    rewrite !bool_decide_eq_true_2 by done. simpl.
    apply andb_true_intro. split; apply Z.leb_le; lia.
Qed.

(** X10: the loop of the form builds a valid stack.  Whatever the
    material database answers, when the slider, the select boxes and the
    number inputs give values within their bounds, the loop ends
    without an error, with as many layers as the slider says, and they
    form a stack in role order with materials and thicknesses as the
    form allows. *)
Theorem form_loop_valid (num_layers : Z) sel th tox :
  widgets_in_bounds num_layers sel th →
  ∃ out, form_loop num_layers sel th tox = Some out
         ∧ Z.of_nat (length out) = num_layers
         ∧ valid_stack (fst <$> out) = true.
Proof.
  intros [Hn Hw]. unfold min_layers in Hn.
  destruct (form_loop_from sel th tox (Z.to_nat num_layers) 0) as (out & Hout & Hlen & Hform);
    [lia|exact Hw|].
  exists out. split; [exact Hout|]. split; [lia|].
  unfold valid_stack. rewrite length_fmap, Hlen, Hform, andb_true_r.
  apply andb_true_intro. unfold min_layers. split; apply Z.leb_le; lia.
Qed.

Lemma demo_widgets_in_bounds : widgets_in_bounds 3 demo_material demo_thickness.
Proof.
  split; [simpl; unfold min_layers; lia|].
  intros i r Hr.
  do 6 (destruct i as [|i];
    [injection Hr as <-; split;
       [apply (bool_decide_eq_true_1 _); vm_compute; reflexivity
       |vm_compute; split; discriminate]|]).
  done.
Qed.

Lemma form_loop_valid_witness :
  ∃ out, form_loop 3 demo_material demo_thickness demo_toxicity = Some out
         ∧ Z.of_nat (length out) = 3
         ∧ valid_stack (fst <$> out) = true.
Proof.
  apply (form_loop_valid 3 demo_material demo_thickness demo_toxicity).
  exact demo_widgets_in_bounds.
Defined.

(** X11: the loop fails exactly past the last role.  Whatever the select
    boxes, number inputs and material database give, the loop fails
    (with the [IndexError] of [layer_roles[i]]) if and only if the number
    of layers exceeds the number of roles: the bound of the slider is
    what keeps it from failing. *)
Theorem form_loop_fails_iff (num_layers : Z) sel th tox :
  form_loop num_layers sel th tox = None
  ↔ Z.of_nat (length layer_roles) < num_layers.
Proof.
  unfold form_loop. rewrite eq_None_not_Some, mapM_is_Some, Forall_forall.
  split.
  - intros H.
    destruct (Z_lt_le_dec (Z.of_nat (length layer_roles)) num_layers)
      as [|Hle]; [done|].
    exfalso. apply H. intros i Hi. apply elem_of_seq in Hi.
    unfold compose. apply form_iteration_is_Some. lia.
  - intros Hlt H.
    assert (Hin : length layer_roles ∈ seq 0 (Z.to_nat num_layers))
      by (apply elem_of_seq; lia).
    specialize (H _ Hin). unfold compose in H.
    apply form_iteration_is_Some in H. lia.
Qed.

(** ** app.py: the toxicity warning and the toxicity overview *)

Lemma bar_color_red (l : Layer) : bar_color l = "red" ↔ toxicity l = "High".
Proof.
  unfold bar_color, tox_colors. cbn [list_to_map foldr uncurry].
  destruct (decide (toxicity l = "Low")) as [->|Hl]; [done|].
  rewrite lookup_insert_ne by done.
  destruct (decide (toxicity l = "Medium")) as [->|Hm]; [done|].
  rewrite lookup_insert_ne by done.
  destruct (decide (toxicity l = "High")) as [->|Hh]; [done|].
  rewrite lookup_insert_ne, lookup_empty by done. done.
Qed.

(** X12: the warning and the red bar go together.  A layer built by the
    loop is shown with the toxicity warning if and only if its bar in
    the toxicity overview is red; a material for which the database has
    no toxicity gives the toxicity [Unknown] and a gray bar. *)
Theorem warning_iff_red_bar (num_layers : Z) sel th tox
    (out : list (Layer * bool)) (l : Layer) (w : bool) :
  form_loop num_layers sel th tox = Some out → (l, w) ∈ out →
  (w = true ↔ bar_color l = "red")
  ∧ (tox (material l) = None → toxicity l = "Unknown" ∧ bar_color l = "gray").
Proof.
  unfold form_loop. rewrite mapM_Some. intros Hall Hin.
  apply list_elem_of_lookup in Hin as [k Hk].
  destruct (Forall2_lookup_r _ _ _ _ _ Hall Hk) as (i & _ & Hi).
  apply form_iteration_Some in Hi as (_ & Hm & _ & Htox & ->).
  rewrite bar_color_red, Hm. split.
  - rewrite bool_decide_eq_true, Htox.
    destruct (tox (sel i)) as [s|]; simpl; [|done].
    split; congruence.
  - intros Hnone. unfold bar_color. rewrite Htox, Hnone. done.
Qed.

Lemma warning_iff_red_bar_witness :
  (true = true ↔ bar_color (layer "Absorber" "Si" 300 "High") = "red")
  ∧ (demo_toxicity (material (layer "Absorber" "Si" 300 "High")) = None →
     toxicity (layer "Absorber" "Si" 300 "High") = "Unknown"
     ∧ bar_color (layer "Absorber" "Si" 300 "High") = "gray").
Proof.
  apply (warning_iff_red_bar 3 demo_material demo_thickness demo_toxicity
           [(layer "TCO" "FTO" 50 "Low", false);
            (layer "ETL" "TiO2" 30 "Low", false);
            (layer "Absorber" "Si" 300 "High", true)]).
  - reflexivity.
  - do 2 right. left.
Defined.

(** ** app.py: the feasibility check on the stacks of the form *)

Lemma valid_stack_first_two (stack : list Layer) :
  valid_stack stack = true →
  ∃ t e rest, stack = t :: e :: rest ∧ role t = "TCO" ∧ role e = "ETL".
Proof.
  unfold valid_stack. intros H. apply andb_prop in H as [H Hform].
  apply andb_prop in H as [Hmin _]. apply Z.leb_le in Hmin.
  unfold min_layers in Hmin.
  destruct stack as [|t [|e rest]]; simpl in Hmin; [lia..|].
  exists t, e, rest. split; [done|].
  simpl in Hform. apply andb_prop in Hform as [Ht Hform].
  apply andb_prop in Hform as [He _].
  apply form_layer_spec in Ht as [Ht _], He as [He _].
  simpl in Ht, He. split; congruence.
Qed.

Lemma find_role_first_two (t e : Layer) (rest : list Layer) :
  role t = "TCO" → role e = "ETL" →
  find_role "TCO" (t :: e :: rest) = Some t
  ∧ find_role "ETL" (t :: e :: rest) = Some e.
Proof.
  intros Ht He. unfold find_role. simpl. rewrite Ht, He. done.
Qed.

(** X13: on the stacks of the form the check always finds its two
    layers.  They are the first two layers of the stack, and the outcome
    is the success message exactly when their pair of materials is one
    of [valid_pairs]; the branch for a missing layer is never taken. *)
Theorem feasibility_check_valid_stack (stack : list Layer) :
  valid_stack stack = true →
  ∃ t e rest,
    stack = t :: e :: rest
    ∧ find_role "TCO" stack = Some t ∧ find_role "ETL" stack = Some e
    ∧ feasibility_check stack =
        if bool_decide ((material t, material e) ∈ valid_pairs)
        then st_success else st_error (material t) (material e).
Proof.
  intros Hv. destruct (valid_stack_first_two _ Hv) as (t & e & rest & -> & Ht & He).
  destruct (find_role_first_two t e rest Ht He) as [Hft Hfe].
  exists t, e, rest. split; [done|]. split; [done|]. split; [done|].
  unfold feasibility_check. rewrite Hft, Hfe.
  by destruct (bool_decide _).
Qed.

Lemma feasibility_check_valid_stack_witness :
  ∃ t e rest,
    demo_stack = t :: e :: rest
    ∧ find_role "TCO" demo_stack = Some t ∧ find_role "ETL" demo_stack = Some e
    ∧ feasibility_check demo_stack =
        if bool_decide ((material t, material e) ∈ valid_pairs)
        then st_success else st_error (material t) (material e).
Proof. apply (feasibility_check_valid_stack demo_stack). reflexivity. Defined.

(** X14: ITO never passes the check.  Although ITO is one of the options
    for the TCO layer, a stack of the form whose TCO layer is ITO gets
    the error message, whichever the material of its ETL layer. *)
Theorem ito_never_feasible (stack : list Layer) :
  valid_stack stack = true → material <$> stack !! 0%nat = Some "ITO" →
  ∃ etl_material, feasibility_check stack = st_error "ITO" etl_material.
Proof.
  intros Hv Hito.
  destruct (valid_stack_first_two _ Hv) as (t & e & rest & -> & Ht & He).
  destruct (find_role_first_two t e rest Ht He) as [Hft Hfe].
  simpl in Hito. injection Hito as Hito.
  exists (material e). unfold feasibility_check. rewrite Hft, Hfe, Hito.
  rewrite bool_decide_eq_false_2; [done|].
  unfold valid_pairs. rewrite !elem_of_cons, elem_of_nil.
  intros [[=]|[[=]|[[=]|[]]]].
Qed.

Lemma ito_never_feasible_witness :
  ∃ etl_material, feasibility_check ito_zno_stack = st_error "ITO" etl_material.
Proof. apply (ito_never_feasible ito_zno_stack); reflexivity. Defined.

Lemma find_role_material (r : string) (stack1 stack2 : list Layer) :
  role <$> stack1 = role <$> stack2 →
  material <$> stack1 = material <$> stack2 →
  material <$> find_role r stack1 = material <$> find_role r stack2.
Proof.
  revert stack2. induction stack1 as [|a s1 IH]; intros [|b s2]; try done.
  rewrite !fmap_cons. intros [= Hr Hrs] [= Hm Hms].
  unfold find_role. simpl. rewrite Hr.
  destruct (bool_decide (role b = r)); simpl; [by rewrite Hm|].
  by apply IH.
Qed.

(** X15: the check looks at roles and materials only.  Two stacks with
    the same roles and the same materials, layer by layer, get the same
    outcome, whatever their thicknesses and toxicities. *)
Theorem feasibility_check_ignores_thickness (stack1 stack2 : list Layer) :
  role <$> stack1 = role <$> stack2 →
  material <$> stack1 = material <$> stack2 →
  feasibility_check stack1 = feasibility_check stack2.
Proof.
  intros Hr Hm.
  pose proof (find_role_material "TCO" _ _ Hr Hm) as Ht.
  pose proof (find_role_material "ETL" _ _ Hr Hm) as He.
  unfold feasibility_check.
  destruct (find_role "TCO" stack1) as [t1|], (find_role "TCO" stack2) as [t2|];
    try done;
  destruct (find_role "ETL" stack1) as [e1|], (find_role "ETL" stack2) as [e2|];
    try done.
  simpl in Ht, He. injection Ht as ->. injection He as ->. done.
Qed.

Lemma feasibility_check_ignores_thickness_witness :
  feasibility_check demo_stack = feasibility_check demo_stack_tco_thicker.
Proof.
  apply (feasibility_check_ignores_thickness demo_stack demo_stack_tco_thicker);
    reflexivity.
Defined.

Lemma find_role_app (r : string) (stack extra : list Layer) :
  is_Some (find_role r stack) →
  find_role r (stack ++ extra) = find_role r stack.
Proof.
  unfold find_role. induction stack as [|a s IH]; simpl.
  - by intros [? ?].
  - destruct (bool_decide (role a = r)); [done|exact IH].
Qed.

(** X16: the first layer of a role decides.  Once a stack has a TCO and
    an ETL layer, layers added after it, also further TCO or ETL layers,
    do not change the outcome of the check. *)
Theorem feasibility_check_first_match (stack extra : list Layer) :
  is_Some (find_role "TCO" stack) → is_Some (find_role "ETL" stack) →
  feasibility_check (stack ++ extra) = feasibility_check stack.
Proof.
  intros Ht He. unfold feasibility_check.
  by rewrite !find_role_app.
Qed.

Lemma feasibility_check_first_match_witness :
  feasibility_check (take 2 ito_two_etl_stack ++ drop 2 ito_two_etl_stack)
  = feasibility_check (take 2 ito_two_etl_stack).
Proof.
  apply (feasibility_check_first_match
           (take 2 ito_two_etl_stack) (drop 2 ito_two_etl_stack));
    vm_compute; eauto.
Defined.

(** ** From the form to the simulation *)

(** X17: the form and the simulation together.  With the widgets within
    their bounds, the stack the loop builds is one on which
    [simulate_electrical] returns, without [OverflowError], and the
    [voc] it returns is the double nearest to 0.60 + 0.01 times the
    value of the slider, whatever materials and thicknesses were
    chosen. *)
Theorem form_then_simulate (num_layers : Z) sel th tox :
  widgets_in_bounds num_layers sel th →
  ∃ out r,
    form_loop num_layers sel th tox = Some out
    ∧ simulate_electrical (fst <$> out) = Ok r
    ∧ voc r = decimal (60 + num_layers) 2.
Proof.
  intros [Hn Hw]. unfold min_layers in Hn.
  destruct (form_loop_from sel th tox (Z.to_nat num_layers) 0)
    as (out & Hout & Hlen & Hform); [lia|exact Hw|].
  assert (Hv : valid_stack (fst <$> out) = true).
  { unfold valid_stack. rewrite length_fmap, Hlen, Hform, andb_true_r.
    apply andb_true_intro. unfold min_layers. split; apply Z.leb_le; lia. }
  destruct (valid_stack_digits _ Hv) as (r & np & nj & Hr & _ & _ & Hvoc & _).
  exists out, r. split; [exact Hout|]. split; [exact Hr|].
  rewrite Hvoc, length_fmap, Hlen. f_equal. lia.
Qed.

Lemma form_then_simulate_witness :
  ∃ out r,
    form_loop 3 demo_material demo_thickness demo_toxicity = Some out
    ∧ simulate_electrical (fst <$> out) = Ok r
    ∧ voc r = decimal (60 + 3) 2.
Proof.
  apply (form_then_simulate 3 demo_material demo_thickness demo_toxicity).
  exact demo_widgets_in_bounds.
Defined.
